(** * Stock ledger of the warehouse inventory application

    A shallow embedding of [inventory/models.py] and
    [inventory/serializers.py], and the properties of the stock ledger
    that hold, or fail, on it.

    - The three tables [prodmast], [stckmain] and [stckdetail] are finite
      maps from primary keys to rows.  An auto-increment id is one past
      the largest id of its table.
    - A Python model instance is a record.  For every foreign key it
      carries the id column and, once it has one, its own copy of the
      related object: Django keeps such a copy per instance, and two
      instances of one row do not share it.  [save] and [delete] read the
      stock from that copy and write the copy back, which is why the copy
      is part of the model.
    - Code that reads and writes the database lives in a state monad with
      exceptions.  A raised exception does not undo anything by itself;
      [atomic] is the savepoint discipline of [transaction.atomic()].
    - [full_clean] is modelled with the checks that bear on the ledger:
      existence of the two related rows, [clean], and the
      [unique_together] lookup.  Left out are the bounds that the database
      backend adds to a [PositiveIntegerField] and to an [IntegerField]
      (quantities and stocks are unbounded integers, as in Python, and a
      write of a product never fails for the size of its stock), the
      uniqueness of [part_no] (no operation modelled here changes a part
      number), and concurrency: every call runs alone, from start to
      end. *)

From stdpp Require Import gmap strings list fin_maps pretty sorting.

Open Scope Z_scope.

(** ** The database and the exceptions *)

Module db.

(** Row of [prodmast] (class [Product]). *)
Record Product := {
  part_no : string;
  description : string;
  current_stock : Z
}.

(** Row of [stckmain] (class [StockTransaction]). *)
Record StockTransaction := {
  transaction_code : string;
  transaction_type : string;
  date : Z;
  notes : option string
}.

(** Row of [stckdetail]: the two foreign-key columns and the quantity. *)
Record DetailRow := {
  transaction_id : Z;
  product_id : Z;
  row_quantity : Z
}.

Record Database := {
  prodmast : gmap Z Product;
  stckmain : gmap Z StockTransaction;
  stckdetail : gmap Z DetailRow
}.

Definition set_prodmast (f : gmap Z Product → gmap Z Product) (d : Database) : Database :=
  {| prodmast := f (prodmast d); stckmain := stckmain d; stckdetail := stckdetail d |}.

Definition set_stckmain (f : gmap Z StockTransaction → gmap Z StockTransaction)
    (d : Database) : Database :=
  {| prodmast := prodmast d; stckmain := f (stckmain d); stckdetail := stckdetail d |}.

Definition set_stckdetail (f : gmap Z DetailRow → gmap Z DetailRow) (d : Database) : Database :=
  {| prodmast := prodmast d; stckmain := stckmain d; stckdetail := f (stckdetail d) |}.

Inductive exn :=
  | ValidationError (message : string)
  | ValidationErrorDict (errors : list (string * string))
  | DoesNotExist
  | ValueError
  | IntegrityError
  | SerializersValidationError (detail : string)
  | SerializersValidationErrorStr (cause : exn).

Inductive outcome (A : Type) :=
  | Return (a : A)
  | Raise (e : exn).
Arguments Return {A} a.
Arguments Raise {A} e.

(** A computation reads a database and leaves one behind, also when it
    raises: what an exception undoes is decided by [atomic] alone. *)
Definition M (A : Type) : Type := Database → Database * outcome A.

Definition ret {A} (a : A) : M A := λ d, (d, Return a).

Definition bind {A B} (m : M A) (k : A → M B) : M B :=
  λ d, match m d with
       | (d', Return a) => k a d'
       | (d', Raise e) => (d', Raise e)
       end.

Definition raise {A} (e : exn) : M A := λ d, (d, Raise e).

Definition get : M Database := λ d, (d, Return d).

Definition modify (f : Database → Database) : M unit := λ d, (f d, Return tt).

(** [with transaction.atomic(): body]: an exception leaving the block
    restores the database of the block's entry and propagates. *)
Definition atomic {A} (body : M A) : M A :=
  λ d, match body d with
       | (d', Return a) => (d', Return a)
       | (_, Raise e) => (d, Raise e)
       end.

(** [try: body except Exception as e: handler(e)]. *)
Definition try_except {A} (body : M A) (handler : exn → M A) : M A :=
  λ d, match body d with
       | (d', Return a) => (d', Return a)
       | (d', Raise e) => handler e d'
       end.

#[global] Instance M_ret : MRet M := @ret.
#[global] Instance M_bind : MBind M := λ A B k m, bind m k.

(** The id an auto-increment column hands out: one past the largest id
    in the table, and 1 for an empty table. *)
Definition next_id {A} (table : gmap Z A) : Z :=
  1 + map_fold (λ k _ acc, Z.max k acc) 0 table.

End db.
Export db.

(** ** [inventory/models.py] *)

Module models.

(** A foreign-key attribute of an instance: the id column ([product_id])
    and the related object once the instance has it ([product]), either
    because it was assigned or because an earlier access loaded it. *)
Record ForeignKey (A : Type) := {
  fk_id : Z;
  fk_cache : option A
}.
Arguments fk_id {A} _.
Arguments fk_cache {A} _.

(** An instance of class [StockTransactionDetail].  [pk = None] is an
    instance that was built in memory and never saved. *)
Record StockTransactionDetail := {
  pk : option Z;
  transaction : ForeignKey StockTransaction;
  product : ForeignKey Product;
  quantity : Z
}.

Definition row_of (self : StockTransactionDetail) : DetailRow :=
  {| transaction_id := fk_id (transaction self);
     product_id := fk_id (product self);
     row_quantity := quantity self |}.

Definition with_current_stock (p : Product) (s : Z) : Product :=
  {| part_no := part_no p; description := description p; current_stock := s |}.

Definition with_pk (self : StockTransactionDetail) (k : Z) : StockTransactionDetail :=
  {| pk := Some k; transaction := transaction self; product := product self;
     quantity := quantity self |}.

Definition with_transaction (self : StockTransactionDetail) (t : StockTransaction)
    : StockTransactionDetail :=
  {| pk := pk self;
     transaction := {| fk_id := fk_id (transaction self); fk_cache := Some t |};
     product := product self; quantity := quantity self |}.

Definition with_product (self : StockTransactionDetail) (p : Product)
    : StockTransactionDetail :=
  {| pk := pk self; transaction := transaction self;
     product := {| fk_id := fk_id (product self); fk_cache := Some p |};
     quantity := quantity self |}.

Arguments with_pk _ _ /.
Arguments with_transaction _ _ /.
Arguments with_product _ _ /.

(** *** Manager and base-class operations *)

(** [Product.save()] of an object whose primary key is [id]. *)
Definition Product_save (id : Z) (p : Product) : M unit :=
  modify (set_prodmast (insert id p)).

(** Access to a related object: the instance's own copy if it has one,
    else a query by id. *)
Definition related {A} (table : Database → gmap Z A) (fk : ForeignKey A) : M A :=
  match fk_cache fk with
  | Some o => mret o
  | None =>
      d ← get;
      match table d !! fk_id fk with
      | Some o => mret o
      | None => raise DoesNotExist
      end
  end.

(** [self.transaction] and [self.product]; the object read stays with
    the instance. *)
Definition get_transaction (self : StockTransactionDetail)
    : M (StockTransactionDetail * StockTransaction) :=
  t ← related stckmain (transaction self);
  mret (with_transaction self t, t).

Definition get_product (self : StockTransactionDetail)
    : M (StockTransactionDetail * Product) :=
  p ← related prodmast (product self);
  mret (with_product self p, p).

(** [StockTransactionDetail.objects.get(pk=k)]: a new instance that has
    loaded no related object. *)
Definition objects_get (k : Z) : M StockTransactionDetail :=
  d ← get;
  match stckdetail d !! k with
  | Some r =>
      mret {| pk := Some k;
              transaction := {| fk_id := transaction_id r; fk_cache := None |};
              product := {| fk_id := product_id r; fk_cache := None |};
              quantity := row_quantity r |}
  | None => raise DoesNotExist
  end.

(** Rows other than [self]'s own that hold the pair (transaction, product). *)
Definition same_pair (r : DetailRow) (k : Z) (r' : DetailRow) (own : option Z) : bool :=
  bool_decide (transaction_id r' = transaction_id r) &&
  bool_decide (product_id r' = product_id r) &&
  bool_decide (own ≠ Some k).

Definition pair_taken (table : gmap Z DetailRow) (r : DetailRow) (own : option Z) : bool :=
  bool_decide (map_Exists (λ k r', same_pair r k r' own = true) table).

(** [models.Model.save] of a detail instance: INSERT under a new id for
    an unsaved instance, UPDATE of row [pk] otherwise; the table's
    constraint [unique_together] is checked by the database. *)
Definition super_save (self : StockTransactionDetail) : M StockTransactionDetail :=
  d ← get;
  if pair_taken (stckdetail d) (row_of self) (pk self) then raise IntegrityError
  else
    let k := match pk self with
             | Some k => k
             | None => next_id (stckdetail d)
             end in
    modify (set_stckdetail (insert k (row_of self)));;
    mret (with_pk self k).

(** [models.Model.delete]. *)
Definition super_delete (self : StockTransactionDetail) : M unit :=
  match pk self with
  | None => raise ValueError
  | Some k => modify (set_stckdetail (delete k))
  end.

(** [StockTransaction.objects.create] on the header fields: the column
    [transaction_code] is unique. *)
Definition StockTransaction_objects_create (t : StockTransaction)
    : M (Z * StockTransaction) :=
  d ← get;
  if bool_decide (map_Exists (λ _ t', transaction_code t' = transaction_code t) (stckmain d))
  then raise IntegrityError
  else
    let k := next_id (stckmain d) in
    modify (set_stckmain (insert k t));;
    mret (k, t).

(** *** Validation: [full_clean] *)

Definition NON_FIELD_ERRORS : string := "__all__".

Definition missing (model : string) (id : Z) : string :=
  model +:+ " instance with id " +:+ pretty id +:+ " does not exist.".

(** [clean_fields]: each foreign key must name an existing row. *)
Definition clean_fields (self : StockTransactionDetail) (d : Database)
    : list (string * string) :=
  (if stckmain d !! fk_id (transaction self) is Some _ then []
   else [("transaction", missing "Stock Transaction" (fk_id (transaction self)))]) ++
  (if prodmast d !! fk_id (product self) is Some _ then []
   else [("product", missing "Product" (fk_id (product self)))]).

Definition quantity_message : string := "Quantity must be a positive number.".

(** [StockTransactionDetail.clean]. *)
Definition clean (self : StockTransactionDetail) : list (string * string) :=
  if bool_decide (quantity self ≤ 0) then [(NON_FIELD_ERRORS, quantity_message)] else [].

Definition unique_message : string :=
  "Stock Transaction Detail with this Transaction and Product already exists.".

(** [validate_unique]: the [unique_together] pair is looked up unless
    one of its fields already failed; an instance that came from the
    database does not count its own row. *)
Definition validate_unique (self : StockTransactionDetail) (d : Database)
    (failed : list (string * string)) : list (string * string) :=
  if bool_decide (failed = []) && pair_taken (stckdetail d) (row_of self) (pk self)
  then [(NON_FIELD_ERRORS, unique_message)] else [].

Definition full_clean_errors (self : StockTransactionDetail) (d : Database)
    : list (string * string) :=
  let fields := clean_fields self d in
  fields ++ clean self ++ validate_unique self d fields.

Definition full_clean (self : StockTransactionDetail) : M unit :=
  d ← get;
  match full_clean_errors self d with
  | [] => mret tt
  | errors => raise (ValidationErrorDict errors)
  end.

(** *** [StockTransactionDetail.save] and [StockTransactionDetail.delete] *)

Definition insufficient_message (p : Product) (required : Z) : string :=
  "Insufficient stock for " +:+ part_no p +:+ ". Available: " +:+
  pretty (current_stock p) +:+ ", Required: " +:+ pretty required.

(** The inverse of a line's effect, on the objects [inst] reads, followed
    by [inst.product.save()]. *)
Definition revert (inst : StockTransactionDetail) : M StockTransactionDetail :=
  '(inst, t) ← get_transaction inst;
  '(inst, p) ← get_product inst;
  let p' := if String.eqb (transaction_type t) "IN"
            then with_current_stock p (current_stock p - quantity inst)
            else with_current_stock p (current_stock p + quantity inst) in
  let inst := with_product inst p' in
  Product_save (fk_id (product inst)) p';;
  mret inst.

(** Python's [if self.pk:]. *)
Definition truthy (k : option Z) : option Z :=
  match k with
  | Some k => if bool_decide (k = 0) then None else Some k
  | None => None
  end.

(** The branch [if self.pk:] of [save]: the stored line is read again
    and its effect is taken back on the product it reads. *)
Definition revert_old (self : StockTransactionDetail) : M unit :=
  match truthy (pk self) with
  | Some k =>
      old_instance ← objects_get k;
      revert old_instance;;
      mret tt
  | None => mret tt
  end.

(** The branches under the comment [Apply the new stock change]: the
    copy of the product that [self] reads is changed, not yet stored. *)
Definition apply_new (self : StockTransactionDetail) : M StockTransactionDetail :=
  '(self, t) ← get_transaction self;
  if String.eqb (transaction_type t) "IN" then
    '(self, p) ← get_product self;
    mret (with_product self (with_current_stock p (current_stock p + quantity self)))
  else if String.eqb (transaction_type t) "OUT" then
    '(self, p) ← get_product self;
    if bool_decide (current_stock p < quantity self)
    then raise (ValidationError (insufficient_message p (quantity self)))
    else mret (with_product self (with_current_stock p (current_stock p - quantity self)))
  else mret self.

(** [self.product.save()] followed by [super().save()]. *)
Definition store (self : StockTransactionDetail) : M StockTransactionDetail :=
  '(self, p) ← get_product self;
  Product_save (fk_id (product self)) p;;
  super_save self.

(** The block under [with db_transaction.atomic():] in [save]. *)
Definition save_body (self : StockTransactionDetail) : M StockTransactionDetail :=
  revert_old self;;
  self ← apply_new self;
  store self.

Definition save (self : StockTransactionDetail) : M StockTransactionDetail :=
  full_clean self;;
  atomic (save_body self).

Definition delete_body (self : StockTransactionDetail) : M unit :=
  self ← revert self;
  super_delete self.

Definition delete (self : StockTransactionDetail) : M unit :=
  atomic (delete_body self).

(** [StockTransactionDetail.objects.create(transaction=t, product=p,
    quantity=q)]: build the instance around the two objects, then
    [save]. *)
Definition objects_create (t : Z * StockTransaction) (p : Z * Product) (q : Z)
    : M StockTransactionDetail :=
  save {| pk := None;
          transaction := {| fk_id := t.1; fk_cache := Some t.2 |};
          product := {| fk_id := p.1; fk_cache := Some p.2 |};
          quantity := q |}.

End models.
Export models.

(** ** [inventory/serializers.py] *)

Module serializers.

(** One entry of [validated_data['details']]: the product object the
    field resolved and the quantity. *)
Record detail_data := {
  dd_product : Z * Product;
  dd_quantity : Z
}.

Definition empty_message : string := "A transaction must have at least one detail line.".

(** The [for detail_data in details_data] loop. *)
Fixpoint create_details (t : Z * StockTransaction) (details_data : list detail_data)
    : M unit :=
  match details_data with
  | [] => mret tt
  | dd :: rest =>
      objects_create t (dd_product dd) (dd_quantity dd);;
      create_details t rest
  end.

(** [StockTransactionSerializer.create]; [header] is [validated_data]
    after [pop('details')], with the default of [date] filled in. *)
Definition create (header : StockTransaction) (details_data : list detail_data)
    : M (Z * StockTransaction) :=
  match details_data with
  | [] => raise (SerializersValidationError empty_message)
  | _ =>
      try_except
        (atomic (
           stock_transaction ← StockTransaction_objects_create header;
           create_details stock_transaction details_data;;
           mret stock_transaction))
        (λ e, raise (SerializersValidationErrorStr e))
  end.

End serializers.
Export serializers.

(** ** Reading the model *)

(** What an access to a foreign key of an instance yields in a database:
    the instance's own copy, else the stored row. *)
Definition seen {A} (table : gmap Z A) (fk : ForeignKey A) : option A :=
  match fk_cache fk with
  | Some o => Some o
  | None => table !! fk_id fk
  end.

(** The copies an instance holds agree with the stored rows. *)
Definition coherent (d : Database) (self : StockTransactionDetail) : Prop :=
  (∀ t, fk_cache (transaction self) = Some t →
        stckmain d !! fk_id (transaction self) = Some t) ∧
  (∀ p, fk_cache (product self) = Some p →
        prodmast d !! fk_id (product self) = Some p).

Definition stock (d : Database) (id : Z) : option Z :=
  current_stock <$> prodmast d !! id.

(** The change of stock a line of quantity [q] under header [t] stands
    for: what the second half of [save] adds. *)
Definition delta (t : StockTransaction) (q : Z) : Z :=
  if String.eqb (transaction_type t) "IN" then q
  else if String.eqb (transaction_type t) "OUT" then - q
  else 0.

(** What a stored line adds to the balance of product [id]: its quantity,
    signed by the type of its header, if it is a line of that product. *)
Definition contribution (headers : gmap Z StockTransaction) (r : DetailRow) (id : Z) : Z :=
  if bool_decide (product_id r = id)
  then match headers !! transaction_id r with
       | Some t => delta t (row_quantity r)
       | None => 0
       end
  else 0.

Definition balance (headers : gmap Z StockTransaction) (lines : gmap Z DetailRow)
    (id : Z) : Z :=
  map_fold (λ _ r acc, contribution headers r id + acc) 0 lines.

(** Sum of the IN quantities minus sum of the OUT quantities over the
    stored lines of product [id]. *)
Definition ledger_balance (d : Database) (id : Z) : Z :=
  balance (stckmain d) (stckdetail d) id.

(** The ledger equation, with what it rests on: headers are IN or OUT,
    every line has its header, and no line has the id 0. *)
Record ledger_state (d : Database) : Prop := {
  types_valid :
    map_Forall (λ _ t, transaction_type t = "IN" ∨ transaction_type t = "OUT") (stckmain d);
  headers_present :
    map_Forall (λ _ r, is_Some (stckmain d !! transaction_id r)) (stckdetail d);
  no_line_zero : stckdetail d !! 0 = None;
  stock_is_balance :
    ∀ id p, prodmast d !! id = Some p → current_stock p = ledger_balance d id
}.

(** No product is short. *)
Definition stocks_nonnegative (d : Database) : Prop :=
  map_Forall (λ _ p, 0 ≤ current_stock p) (prodmast d).

(** The three operations on lines as a client performs them that reads
    what it needs from the tables at the moment of the call. *)
Definition apply_line (tid pid q : Z) : M StockTransactionDetail :=
  d ← get;
  match stckmain d !! tid, prodmast d !! pid with
  | Some t, Some p => objects_create (tid, t) (pid, p) q
  | _, _ => raise DoesNotExist
  end.

Definition replace_line (k pid q : Z) : M StockTransactionDetail :=
  inst ← objects_get k;
  save {| pk := pk inst; transaction := transaction inst;
          product := {| fk_id := pid; fk_cache := None |};
          quantity := q |}.

Definition remove_line (k : Z) : M unit :=
  inst ← objects_get k;
  delete inst.

(** The product objects of a submission are the stored rows. *)
Definition resolved (d : Database) (details_data : list detail_data) : Prop :=
  Forall (λ dd, prodmast d !! (dd_product dd).1 = Some (dd_product dd).2) details_data.

(** The id under which [super_save] stores an instance. *)
Definition key_of (self : StockTransactionDetail) (d : Database) : Z :=
  default (next_id (stckdetail d)) (pk self).

(** Every stored line has a quantity above zero. *)
Definition positive_quantities (d : Database) : Prop :=
  map_Forall (λ _ r, 0 < row_quantity r) (stckdetail d).

(** No two stored lines hold the same pair (transaction, product). *)
Definition unique_pairs (d : Database) : Prop :=
  map_Forall (λ k r, pair_taken (stckdetail d) r (Some k) = false) (stckdetail d).

(** The calls a client of the two modules can make, each with the
    objects the client holds, and the database a sequence of them leaves
    behind, whether they return or raise. *)
Inductive call :=
  | Save (self : StockTransactionDetail)
  | Delete (self : StockTransactionDetail)
  | Create (header : StockTransaction) (details_data : list detail_data).

Definition perform (d : Database) (c : call) : Database :=
  match c with
  | Save self => (save self d).1
  | Delete self => (delete self d).1
  | Create header details_data => (create header details_data d).1
  end.

Definition run (cs : list call) (d : Database) : Database :=
  foldl perform d cs.

(** The lines of a submission stored one after the other, each by a
    returning [objects_create], from the first to the last. *)
Inductive applied (t : Z * StockTransaction)
    : list detail_data → Database → Database → Prop :=
  | applied_nil d : applied t [] d d
  | applied_cons dd rest d d1 d' self' :
      objects_create t (dd_product dd) (dd_quantity dd) d = (d1, Return self') →
      applied t rest d1 d' →
      applied t (dd :: rest) d d'.

(** ** Scenarios *)

Module scenario.

Definition P100 (s : Z) : Product :=
  {| part_no := "P-100"; description := "bolt"; current_stock := s |}.
Definition P200 (s : Z) : Product :=
  {| part_no := "P-200"; description := "nut"; current_stock := s |}.
Definition P300 (s : Z) : Product :=
  {| part_no := "P-300"; description := "washer"; current_stock := s |}.
Definition P400 (s : Z) : Product :=
  {| part_no := "P-400"; description := "rivet"; current_stock := s |}.

Definition GRN1 : StockTransaction :=
  {| transaction_code := "GRN-1"; transaction_type := "IN"; date := 100; notes := None |}.
Definition DO1 : StockTransaction :=
  {| transaction_code := "DO-1"; transaction_type := "OUT"; date := 200; notes := None |}.
Definition DO2 : StockTransaction :=
  {| transaction_code := "DO-2"; transaction_type := "OUT"; date := 300; notes := None |}.

(** One product, nothing received yet. *)
Definition fresh_db : Database :=
  {| prodmast := {[ 1 := P100 0 ]}; stckmain := ∅; stckdetail := ∅ |}.

(** Product 1 holds 5 and the header DO-1 exists without lines. *)
Definition five_db : Database :=
  {| prodmast := {[ 1 := P100 5 ]}; stckmain := {[ 1 := DO1 ]}; stckdetail := ∅ |}.

(** Product 1 holds 10 because of the one line 1, an IN line of 10. *)
Definition ten_db : Database :=
  {| prodmast := {[ 1 := P100 10 ]};
     stckmain := {[ 1 := GRN1 ]};
     stckdetail := {[ 1 := {| transaction_id := 1; product_id := 1; row_quantity := 10 |} ]} |}.

(** Product 1 holds 5: 8 received by line 1, 3 issued by line 2. *)
Definition history_db : Database :=
  {| prodmast := {[ 1 := P100 5 ]};
     stckmain := {[ 1 := GRN1; 2 := DO1 ]};
     stckdetail :=
       {[ 1 := {| transaction_id := 1; product_id := 1; row_quantity := 8 |};
          2 := {| transaction_id := 2; product_id := 1; row_quantity := 3 |} ]} |}.

(** Four products on the shelf. *)
Definition shelf_db : Database :=
  {| prodmast := {[ 1 := P100 10; 2 := P200 10; 3 := P300 10; 4 := P400 3 ]};
     stckmain := ∅; stckdetail := ∅ |}.

(** The header GRN-1 exists, nothing received yet. *)
Definition header_db : Database :=
  {| prodmast := {[ 1 := P100 0 ]}; stckmain := {[ 1 := GRN1 ]}; stckdetail := ∅ |}.

(** A submission of four lines; the shelf holds too little of the last. *)
Definition four_lines : list detail_data :=
  [ {| dd_product := (1, P100 10); dd_quantity := 5 |};
    {| dd_product := (2, P200 10); dd_quantity := 5 |};
    {| dd_product := (3, P300 10); dd_quantity := 5 |};
    {| dd_product := (4, P400 3); dd_quantity := 5 |} ].

(** A line as the client builds it before the first [save]. *)
Definition new_line (t : Z * StockTransaction) (p : Z * Product) (q : Z)
    : StockTransactionDetail :=
  {| pk := None;
     transaction := {| fk_id := t.1; fk_cache := Some t.2 |};
     product := {| fk_id := p.1; fk_cache := Some p.2 |};
     quantity := q |}.

(** Line [k] as [objects_get] returns it: no related object loaded.  With
    another [q] than the stored one it is the line after the client
    assigned a new quantity. *)
Definition line_at (k tid pid q : Z) : StockTransactionDetail :=
  {| pk := Some k;
     transaction := {| fk_id := tid; fk_cache := None |};
     product := {| fk_id := pid; fk_cache := None |};
     quantity := q |}.

Definition with_quantity (self : StockTransactionDetail) (q : Z) : StockTransactionDetail :=
  {| pk := pk self; transaction := transaction self; product := product self;
     quantity := q |}.

End scenario.

(** ** The rest of the modules and the callers in [inventory/views.py] *)

(** [StockTransactionDetail.__str__]: the part number is read through
    [self.product], so the product object stays with the instance. *)
Definition detail_str (self : StockTransactionDetail) : M (StockTransactionDetail * string) :=
  '(self, p) ← get_product self;
  mret (self, part_no p +:+ " - Qty: " +:+ pretty (quantity self)).

(** Assignment to [self.quantity]. *)
Definition set_quantity (self : StockTransactionDetail) (q : Z) : StockTransactionDetail :=
  {| pk := pk self; transaction := transaction self; product := product self;
     quantity := q |}.

(** [StockTransaction.delete()], which the class does not override and
    which [ModelViewSet.destroy] calls.  The lines reference their header
    with [on_delete=models.CASCADE]: the collector removes their rows
    together with the header's; [StockTransactionDetail.delete] is not
    called for them. *)
Definition StockTransaction_delete (tid : Z) : M unit :=
  modify (λ d,
    {| prodmast := prodmast d;
       stckmain := base.delete tid (stckmain d);
       stckdetail := filter (λ kr, transaction_id kr.2 ≠ tid) (stckdetail d) |}).

(** [Product.delete()], not overridden either.  The lines reference
    their product with [on_delete=models.PROTECT]: while a line names the
    product the call raises [ProtectedError], a subclass of
    [IntegrityError]. *)
Definition Product_delete (id : Z) : M unit :=
  d ← get;
  if bool_decide (map_Exists (λ _ r, product_id r = id) (stckdetail d))
  then raise IntegrityError
  else modify (set_prodmast (base.delete id)).

(** [ProductViewSet.inventory]: the queryset of all products under
    [order_by('part_no')], each serialized with its id and its three
    fields.  The order of two part numbers is the collation of the
    database, the argument [collate]. *)
Definition by_part_no (collate : string → string → bool) : relation (Z * Product) :=
  λ x y, collate (part_no x.2) (part_no y.2) = true.

#[global] Instance by_part_no_dec collate x y : Decision (by_part_no collate x y).
Proof. unfold by_part_no. apply _. Defined.

Definition inventory (collate : string → string → bool) : M (list (Z * Product)) :=
  d ← get;
  mret (merge_sort (by_part_no collate) (map_to_list (prodmast d))).

(** Every stored line names a stored header and a stored product. *)
Definition references_exist (d : Database) : Prop :=
  map_Forall (λ _ r, is_Some (stckmain d !! transaction_id r) ∧
                     is_Some (prodmast d !! product_id r)) (stckdetail d).

(** The calls of [call], and the two deletions that the viewsets offer. *)
Inductive operation :=
  | Call (c : call)
  | DeleteTransaction (tid : Z)
  | DeleteProduct (id : Z).

Definition act (d : Database) (op : operation) : Database :=
  match op with
  | Call c => perform d c
  | DeleteTransaction tid => (StockTransaction_delete tid d).1
  | DeleteProduct id => (Product_delete id d).1
  end.

(** What the lines of a submission stand for, product by product. *)
Definition line_effect (header : StockTransaction) (dd : detail_data) : Product :=
  with_current_stock (dd_product dd).2
    (current_stock (dd_product dd).2 + delta header (dd_quantity dd)).

(** Two products and one issue: 3 of product 1 went out by line 1. *)
Definition two_db : Database :=
  {| prodmast := {[ 1 := scenario.P100 5; 2 := scenario.P200 2 ]};
     stckmain := {[ 1 := scenario.DO1 ]};
     stckdetail := {[ 1 := {| transaction_id := 1; product_id := 1; row_quantity := 3 |} ]} |}.


(** Product 1 holds 2 and the header DO-1 exists without lines: the
    database of a client whose product object still says 10. *)
Definition behind_db : Database :=
  {| prodmast := {[ 1 := scenario.P100 2 ]};
     stckmain := {[ 1 := scenario.DO1 ]};
     stckdetail := ∅ |}.



(** ** Auxiliary facts *)

Section next_id.
Context {A : Type}.
Implicit Types table : gmap Z A.

Lemma next_id_above table k : is_Some (table !! k) → k < next_id table.
Proof.
  unfold next_id. revert k.
  apply (map_fold_weak_ind (λ b m, ∀ k, is_Some (m !! k) → k < 1 + b)).
  - intros k [x Hx]. by rewrite lookup_empty in Hx.
  - intros i x m r Hi IH k Hk.
    destruct (decide (i = k)) as [->|Hne]; [lia|].
    rewrite lookup_insert_ne in Hk by done.
    specialize (IH k Hk). lia.
Qed.

Lemma next_id_fresh table : table !! next_id table = None.
Proof.
  destruct (table !! next_id table) eqn:E; [|done].
  assert (next_id table < next_id table) by (apply next_id_above; eauto). lia.
Qed.

Lemma next_id_positive table : 0 < next_id table.
Proof.
  unfold next_id.
  apply (map_fold_weak_ind (λ b m, 0 < 1 + b)); intros; lia.
Qed.
End next_id.

(** Unfolds the monad's operations in the goal and the hypotheses. *)
Ltac unfold_M :=
  unfold mbind, M_bind, bind, mret, M_ret, ret, get, raise, modify, atomic, try_except in *.

Lemma related_seen {A} (table : Database → gmap Z A) (fk : ForeignKey A) (d : Database) :
  related table fk d =
  (d, match seen (table d) fk with Some o => Return o | None => Raise DoesNotExist end).
Proof.
  unfold related, seen.
  destruct (fk_cache fk); [done|]. unfold_M. by destruct (table d !! fk_id fk).
Qed.

Lemma get_product_seen self d :
  get_product self d =
  (d, match seen (prodmast d) (product self) with
      | Some p => Return (with_product self p, p)
      | None => Raise DoesNotExist
      end).
Proof.
  unfold get_product. unfold mbind, M_bind, bind. rewrite related_seen.
  by destruct (seen _ _).
Qed.

Lemma get_transaction_seen self d :
  get_transaction self d =
  (d, match seen (stckmain d) (transaction self) with
      | Some t => Return (with_transaction self t, t)
      | None => Raise DoesNotExist
      end).
Proof.
  unfold get_transaction. unfold mbind, M_bind, bind. rewrite related_seen.
  by destruct (seen _ _).
Qed.

Lemma full_clean_run self d :
  full_clean self d =
  (d, match full_clean_errors self d with
      | [] => Return tt
      | errors => Raise (ValidationErrorDict errors)
      end).
Proof. unfold full_clean. unfold_M. by destruct (full_clean_errors self d). Qed.

(** A line that passes [full_clean] names two existing rows and a pair
    that no other row holds. *)
Lemma full_clean_errors_nil self d :
  full_clean_errors self d = [] →
  is_Some (stckmain d !! fk_id (transaction self)) ∧
  is_Some (prodmast d !! fk_id (product self)) ∧
  0 < quantity self ∧
  pair_taken (stckdetail d) (row_of self) (pk self) = false.
Proof.
  unfold full_clean_errors, clean_fields, clean, validate_unique.
  destruct (stckmain d !! _) eqn:Ht; [|done].
  destruct (prodmast d !! _) eqn:Hp; [|done].
  cbn. case_bool_decide; [done|]. cbn.
  destruct (pair_taken _ _ _); [done|].
  intros _. repeat split; eauto. lia.
Qed.

(** ** Apply-line on an OUT transaction *)



(** ** What [save] and [delete] do to the three tables *)

Lemma revert_frame inst d d' r :
  revert inst d = (d', r) →
  stckmain d' = stckmain d ∧ stckdetail d' = stckdetail d.
Proof.
  unfold revert, Product_save. unfold_M.
  rewrite get_transaction_seen. destruct (seen (stckmain d) _); [|naive_solver].
  rewrite get_product_seen. cbn. destruct (seen (prodmast d) _); naive_solver.
Qed.

Lemma revert_old_frame self d d' r :
  revert_old self d = (d', r) →
  stckmain d' = stckmain d ∧ stckdetail d' = stckdetail d.
Proof.
  unfold revert_old, objects_get. unfold_M.
  destruct (truthy (pk self)) as [k|]; [|naive_solver].
  destruct (stckdetail d !! k); [|naive_solver].
  destruct (revert _ d) as [d2 [a|e]] eqn:Hr; intros; simplify_eq;
    by eapply revert_frame.
Qed.

Lemma apply_new_inv self d d' self' :
  apply_new self d = (d', Return self') →
  d' = d ∧ pk self' = pk self ∧ row_of self' = row_of self.
Proof.
  unfold apply_new. unfold_M. rewrite get_transaction_seen.
  destruct (seen (stckmain d) _) as [t|]; [|done].
  destruct (String.eqb (transaction_type t) "IN");
    [|destruct (String.eqb (transaction_type t) "OUT")];
    rewrite ?get_product_seen; cbn;
    try (destruct (seen (prodmast d) _); [|done]); try case_bool_decide;
    try done; by intros [= <- <-].
Qed.

Lemma store_inv self d d' self' :
  store self d = (d', Return self') →
  ∃ p, seen (prodmast d) (product self) = Some p ∧
       d' = {| prodmast := <[fk_id (product self) := p]> (prodmast d);
               stckmain := stckmain d;
               stckdetail := <[key_of self d := row_of self]> (stckdetail d) |} ∧
       pair_taken (stckdetail d) (row_of self) (pk self) = false ∧
       self' = with_pk (with_product self p) (key_of self d).
Proof.
  unfold store, Product_save, super_save. unfold_M. rewrite get_product_seen.
  destruct (seen (prodmast d) _) as [p|]; [|done]. cbn.
  unfold row_of, key_of. cbn. destruct (pair_taken _ _ _); [done|].
  intros [= <- <-]. exists p. by destruct (pk self).
Qed.

Lemma save_body_inv self d d' self' :
  save_body self d = (d', Return self') →
  stckmain d' = stckmain d ∧
  stckdetail d' = <[key_of self d := row_of self]> (stckdetail d) ∧
  pair_taken (stckdetail d) (row_of self) (pk self) = false ∧
  pk self' = Some (key_of self d) ∧
  row_of self' = row_of self.
Proof.
  unfold save_body. unfold_M.
  destruct (revert_old self d) as [d0 [[]|e]] eqn:Hrev; [|done].
  apply revert_old_frame in Hrev as [Hm Hd].
  destruct (apply_new self d0) as [d1 [self1|e]] eqn:Hnew; [|done].
  apply apply_new_inv in Hnew as (-> & Hpk & Hrow).
  intros (p & _ & -> & Hfree & ->)%store_inv.
  unfold key_of in *. rewrite Hpk, Hrow, Hd in *. done.
Qed.

Lemma save_inv self d d' r :
  save self d = (d', r) →
  (d' = d ∧ ∃ e, r = Raise e) ∨
  (∃ self', r = Return self' ∧
     0 < quantity self ∧
     stckmain d' = stckmain d ∧
     stckdetail d' = <[key_of self d := row_of self]> (stckdetail d) ∧
     pair_taken (stckdetail d) (row_of self) (pk self) = false ∧
     pk self' = Some (key_of self d)).
Proof.
  unfold save. unfold_M. rewrite full_clean_run.
  destruct (full_clean_errors self d) eqn:Hclean; [|intros [= <- <-]; eauto].
  apply full_clean_errors_nil in Hclean as (_ & _ & Hq & _).
  destruct (save_body self d) as [d1 [self'|e]] eqn:Hbody; intros [= <- <-]; [|eauto].
  apply save_body_inv in Hbody as (? & ? & ? & ? & ?). right. eauto 10.
Qed.

Lemma delete_inv self d d' r :
  delete self d = (d', r) →
  (d' = d ∧ ∃ e, r = Raise e) ∨
  (∃ k, pk self = Some k ∧ r = Return tt ∧
     stckmain d' = stckmain d ∧
     stckdetail d' = base.delete k (stckdetail d)).
Proof.
  unfold delete, delete_body. unfold_M.
  destruct (revert self d) as [d1 [self1|e]] eqn:Hrev; [|intros [= <- <-]; eauto].
  assert (pk self1 = pk self) as Hpk.
  { revert Hrev. unfold revert, Product_save. unfold_M.
    rewrite get_transaction_seen. destruct (seen (stckmain d) _); [|done].
    rewrite get_product_seen. cbn. destruct (seen (prodmast d) _); [|done].
    by intros [= <- <-]. }
  apply revert_frame in Hrev as [Hm Hd].
  unfold super_delete. rewrite Hpk. unfold_M.
  destruct (pk self) as [k|]; intros [= <- <-]; [|eauto].
  right. exists k. cbn. by rewrite Hm, Hd.
Qed.

Lemma header_create_inv header d d' r :
  StockTransaction_objects_create header d = (d', r) →
  prodmast d' = prodmast d ∧ stckdetail d' = stckdetail d.
Proof.
  unfold StockTransaction_objects_create. unfold_M.
  case_bool_decide; by intros [= <- <-].
Qed.

(** ** Atomicity of [save] *)

(** C6. A [save] that raises leaves the database it was called on: when
    the second half of a replacement fails, the product row that the
    first half wrote back with the old line's effect taken out is
    restored, and so are the other product and the stored line. *)
Theorem replace_line_atomic (self : StockTransactionDetail) (d d' : Database) (e : exn) :
  save self d = (d', Raise e) → d' = d.
Proof.
  intros H. apply save_inv in H as [[-> _]|(? & ? & _)]; done.
Qed.

(** Line 2 of [history_db], an OUT line of 3, is edited to ask for 100.
    Inside the block the product row was already written back with 8;
    the failed [save] leaves 5. *)
Lemma replace_line_atomic_witness :
  save (scenario.line_at 2 2 1 100) scenario.history_db =
  (scenario.history_db,
   Raise (ValidationError "Insufficient stock for P-100. Available: 8, Required: 100")) ∧
  stock (save_body (scenario.line_at 2 2 1 100) scenario.history_db).1 1 = Some 8 ∧
  stock scenario.history_db 1 = Some 5.
Proof.
  split; [|split; reflexivity].
  refine (eq_trans _ (f_equal (λ x, (x, Raise _))
            (replace_line_atomic (scenario.line_at 2 2 1 100) scenario.history_db
               (save (scenario.line_at 2 2 1 100) scenario.history_db).1
               (ValidationError "Insufficient stock for P-100. Available: 8, Required: 100")
               _))).
  - vm_compute. reflexivity.
  - vm_compute. reflexivity.
Defined.

(** ** Invariants of the line table *)

Lemma create_details_applied t details_data d d' :
  create_details t details_data d = (d', Return tt) → applied t details_data d d'.
Proof.
  revert d. induction details_data as [|dd rest IH]; intros d.
  - unfold_M. cbn. unfold_M. intros [= <-]. constructor.
  - cbn. unfold_M.
    destruct (objects_create t (dd_product dd) (dd_quantity dd) d)
      as [d1 [self'|e]] eqn:Hline; [|done].
    intros Hrest. econstructor; eauto.
Qed.

Lemma create_inv header details_data d d' r :
  create header details_data d = (d', r) →
  (d' = d ∧ ∃ e, r = Raise e) ∨
  (∃ t d0, r = Return t ∧
     StockTransaction_objects_create header d = (d0, Return t) ∧
     applied t details_data d0 d').
Proof.
  unfold create. destruct details_data as [|dd rest]; [intros [= <- <-]; eauto|].
  unfold try_except, atomic. unfold mbind at 1, M_bind at 1, bind at 1.
  destruct (StockTransaction_objects_create header d) as [d0 [t|e]] eqn:Hh;
    [|intros [= <- <-]; eauto].
  unfold mbind, M_bind, bind.
  destruct (create_details t (dd :: rest) d0) as [d1 [[]|e]] eqn:Hlines;
    [|intros [= <- <-]; eauto].
  unfold mret, M_ret, ret. intros [= <- <-]. right.
  exists t, d0. eauto using create_details_applied.
Qed.

Section invariant.
Variable I : Database → Prop.
Hypothesis I_save : ∀ self d d' r, I d → save self d = (d', r) → I d'.
Hypothesis I_delete : ∀ self d d' r, I d → delete self d = (d', r) → I d'.
Hypothesis I_header :
  ∀ header d d' r, I d → StockTransaction_objects_create header d = (d', r) → I d'.

Lemma invariant_applied t details_data d d' :
  I d → applied t details_data d d' → I d'.
Proof. intros HI Happ. induction Happ; eauto. Qed.

Lemma invariant_perform d c : I d → I (perform d c).
Proof.
  intros HI. destruct c as [self|self|header details_data]; cbn.
  - destruct (save self d) eqn:?; eauto.
  - destruct (delete self d) eqn:?; eauto.
  - destruct (create header details_data d) as [d' r] eqn:Hc. cbn.
    apply create_inv in Hc as [[-> _]|(t & d0 & _ & Hh & Happ)]; [done|].
    eauto using invariant_applied.
Qed.

Lemma invariant_run cs d : I d → I (run cs d).
Proof.
  unfold run. revert d. induction cs as [|c cs IH]; intros d HI; cbn; [done|].
  apply IH. by apply invariant_perform.
Qed.
End invariant.

Lemma positive_quantities_run cs d : positive_quantities d → positive_quantities (run cs d).
Proof.
  apply invariant_run; unfold positive_quantities.
  - intros self d0 d' r HI [[-> _]|(self' & _ & Hq & _ & -> & _)]%save_inv; [done|].
    by apply map_Forall_insert_2.
  - intros self d0 d' r HI [[-> _]|(k & _ & _ & _ & ->)]%delete_inv; [done|].
    by apply map_Forall_delete.
  - intros header d0 d' r HI [_ ->]%header_create_inv. done.
Qed.

(** ** Validation of the quantity *)

(** C8. A line whose quantity is zero or negative is refused by
    [full_clean], ahead of the block that writes: [save] raises the
    validation error that carries the message of [clean] and leaves the
    database as it was.  Hence, in a table whose lines all have a
    quantity above zero, every line has one after any sequence of calls. *)
Theorem apply_line_invalid_quantity :
  (∀ self d, quantity self ≤ 0 →
     ∃ errors,
       (NON_FIELD_ERRORS, quantity_message) ∈ errors ∧
       full_clean self d = (d, Raise (ValidationErrorDict errors)) ∧
       save self d = (d, Raise (ValidationErrorDict errors))) ∧
  (∀ cs d, positive_quantities d → positive_quantities (run cs d)).
Proof.
  split; [|apply positive_quantities_run].
  intros self d Hq. exists (full_clean_errors self d).
  assert ((NON_FIELD_ERRORS, quantity_message) ∈ full_clean_errors self d) as Hin.
  { unfold full_clean_errors, clean. rewrite bool_decide_eq_true_2 by done.
    set_solver. }
  unfold save. unfold_M. rewrite !full_clean_run.
  destruct (full_clean_errors self d); [by apply elem_of_nil in Hin|done].
Qed.

Lemma apply_line_invalid_quantity_witness :
  (quantity (scenario.new_line (1, scenario.DO1) (1, scenario.P100 5) 0) ≤ 0 ∧
   ∃ errors,
     (NON_FIELD_ERRORS, quantity_message) ∈ errors ∧
     full_clean (scenario.new_line (1, scenario.DO1) (1, scenario.P100 5) 0)
       scenario.five_db =
       (scenario.five_db, Raise (ValidationErrorDict errors)) ∧
     save (scenario.new_line (1, scenario.DO1) (1, scenario.P100 5) 0) scenario.five_db =
       (scenario.five_db, Raise (ValidationErrorDict errors))) ∧
  (positive_quantities scenario.history_db ∧
   positive_quantities
     (run [ Save (scenario.line_at 2 2 1 0); Save (scenario.line_at 2 2 1 4);
            Delete (scenario.line_at 1 1 1 8) ] scenario.history_db)).
Proof.
  assert (positive_quantities scenario.history_db) as Hpos.
  { refine (bool_decide_unpack (map_Forall _ _) _). vm_compute. exact I. }
  split; [split; [simpl; lia|]|split; [exact Hpos|]].
  - apply (proj1 apply_line_invalid_quantity
             (scenario.new_line (1, scenario.DO1) (1, scenario.P100 5) 0)
             scenario.five_db).
    simpl. lia.
  - apply (proj2 apply_line_invalid_quantity _ scenario.history_db Hpos).
Defined.

(** ** Create-transaction *)

Lemma create_raise_wrapped header details_data d d' e :
  details_data ≠ [] →
  create header details_data d = (d', Raise e) →
  ∃ cause, e = SerializersValidationErrorStr cause.
Proof.
  unfold create. destruct details_data as [|dd rest]; [done|]. intros _.
  unfold try_except, atomic. unfold mbind at 1, M_bind at 1, bind at 1.
  destruct (StockTransaction_objects_create header d) as [d0 [t|e0]];
    [|intros [= <- <-]; eauto].
  unfold mbind, M_bind, bind.
  destruct (create_details t (dd :: rest) d0) as [d1 [[]|e1]];
    [done|intros [= <- <-]; eauto].
Qed.

(** C9. A submission without lines is refused before the atomic block
    is entered: whatever the header and the database, the call raises the
    serializer's validation error with the message about the missing
    line, and the database, headers and stock included, is the one it was
    called on.  No other submission is refused with that error. *)
Theorem create_empty :
  (∀ header d,
     create header [] d = (d, Raise (SerializersValidationError empty_message))) ∧
  (∀ header details_data d d',
     create header details_data d = (d', Raise (SerializersValidationError empty_message)) →
     details_data = []).
Proof.
  split; [done|].
  intros header details_data d d' Hc.
  destruct details_data as [|dd rest]; [done|].
  by apply create_raise_wrapped in Hc as [cause [=]].
Qed.

(** The header's code is taken already, and still the refusal is the
    one for the missing lines. *)
Lemma create_empty_witness :
  create scenario.DO1 [] scenario.five_db =
    (scenario.five_db, Raise (SerializersValidationError empty_message)) ∧
  (create scenario.DO1 [] scenario.five_db =
     (scenario.five_db, Raise (SerializersValidationError empty_message)) →
   @nil detail_data = []).
Proof.
  split; [apply (proj1 create_empty)|].
  apply (proj2 create_empty scenario.DO1 [] scenario.five_db scenario.five_db).
Defined.

Lemma create_details_app t pre rest d0 d1 :
  applied t pre d0 d1 →
  create_details t (pre ++ rest) d0 = create_details t rest d1.
Proof.
  induction 1 as [|dd pre' d d1 d' self' Hline _ IH]; [done|].
  cbn. unfold mbind, M_bind, bind. by rewrite Hline.
Qed.

Lemma create_line_raises header pre dd post d d0 t d1 d2 e :
  StockTransaction_objects_create header d = (d0, Return t) →
  applied t pre d0 d1 →
  objects_create t (dd_product dd) (dd_quantity dd) d1 = (d2, Raise e) →
  create header (pre ++ dd :: post) d = (d, Raise (SerializersValidationErrorStr e)).
Proof.
  intros Hh Hpre Hline.
  assert (create_details t (pre ++ dd :: post) d0 = (d2, Raise e)) as Hlines.
  { rewrite (create_details_app _ _ _ _ _ Hpre). cbn.
    unfold mbind, M_bind, bind. by rewrite Hline. }
  unfold create.
  destruct (pre ++ dd :: post) as [|x l] eqn:Hne; [by destruct pre|].
  unfold try_except, atomic, mbind, M_bind, bind. by rewrite Hh, Hlines.
Qed.

(** C2. [create] stores the header and then the lines, from the first
    to the last, inside one atomic block.  When it returns, the database
    is the one reached by the header and by one returning
    [objects_create] per line in the order of the submission; when it
    raises, the database is the one it was called on.  In particular a
    line that raises after the header and the lines before it were
    written makes the call raise with nothing of them kept. *)
Theorem create_atomic_in_order :
  (∀ header details_data d,
     match create header details_data d with
     | (d', Return t) =>
         ∃ d0, StockTransaction_objects_create header d = (d0, Return t) ∧
               applied t details_data d0 d'
     | (d', Raise e) => d' = d
     end) ∧
  (∀ header pre dd post d d0 t d1 d2 e,
     StockTransaction_objects_create header d = (d0, Return t) →
     applied t pre d0 d1 →
     objects_create t (dd_product dd) (dd_quantity dd) d1 = (d2, Raise e) →
     create header (pre ++ dd :: post) d = (d, Raise (SerializersValidationErrorStr e))).
Proof.
  split; [|apply create_line_raises].
  intros header details_data d.
  destruct (create header details_data d) as [d' r] eqn:Hc.
  apply create_inv in Hc as [[-> [e ->]]|(t & d0 & -> & Hh & Happ)]; eauto.
Qed.

(** Three lines that apply and a fourth that asks for more than the
    shelf holds: the call raises and the shelf is untouched, although
    inside the block three product rows had been written. *)
Lemma create_atomic_in_order_witness :
  create scenario.DO1 scenario.four_lines scenario.shelf_db =
  (scenario.shelf_db,
   Raise (SerializersValidationErrorStr
            (ValidationError "Insufficient stock for P-400. Available: 3, Required: 5"))) ∧
  stock (create_details (1, scenario.DO1) scenario.four_lines
           (StockTransaction_objects_create scenario.DO1 scenario.shelf_db).1).1 1 = Some 5.
Proof.
  split; [|vm_compute; reflexivity].
  refine (proj2 create_atomic_in_order scenario.DO1
            (take 3 scenario.four_lines)
            {| dd_product := (4, scenario.P400 3); dd_quantity := 5 |} []
            scenario.shelf_db _ (1, scenario.DO1) _ _ _ _ _ _).
  - vm_compute. reflexivity.
  - cbn [take scenario.four_lines].
    eapply applied_cons; [vm_compute; reflexivity|].
    eapply applied_cons; [vm_compute; reflexivity|].
    eapply applied_cons; [vm_compute; reflexivity|].
    apply applied_nil.
  - vm_compute. reflexivity.
Defined.

(** ** Uniqueness of (transaction, product) *)

Lemma pair_taken_true table r own :
  pair_taken table r own = true ↔
  ∃ k r', table !! k = Some r' ∧ transaction_id r' = transaction_id r ∧
          product_id r' = product_id r ∧ own ≠ Some k.
Proof.
  unfold pair_taken, same_pair. rewrite bool_decide_eq_true. unfold map_Exists.
  split.
  - intros (k & r' & Hk & H). exists k, r'.
    rewrite !andb_true_iff, !bool_decide_eq_true in H.
    destruct H as [[H1 H2] H3]. done.
  - intros (k & r' & Hk & H1 & H2 & H3). exists k, r'. split; [done|].
    rewrite !andb_true_iff, !bool_decide_eq_true. done.
Qed.

Lemma pair_taken_false table r own :
  pair_taken table r own = false ↔
  ∀ k r', table !! k = Some r' → transaction_id r' = transaction_id r →
          product_id r' = product_id r → own = Some k.
Proof.
  rewrite <-not_true_iff_false, pair_taken_true. split.
  - intros Hno k r' Hk H1 H2. destruct (decide (own = Some k)); [done|].
    destruct Hno. eauto 10.
  - intros Hall (k & r' & Hk & H1 & H2 & H3). eauto.
Qed.

Lemma unique_pairs_spec d :
  unique_pairs d ↔
  ∀ k1 k2 r1 r2,
    stckdetail d !! k1 = Some r1 → stckdetail d !! k2 = Some r2 →
    transaction_id r1 = transaction_id r2 → product_id r1 = product_id r2 →
    k1 = k2.
Proof.
  unfold unique_pairs, map_Forall. split.
  - intros H k1 k2 r1 r2 H1 H2 Ht Hp.
    specialize (H k2 r2 H2). rewrite pair_taken_false in H.
    specialize (H k1 r1 H1 Ht Hp). congruence.
  - intros H k r Hk. apply pair_taken_false. intros k' r' Hk' Ht Hp.
    f_equal. eauto.
Qed.

Lemma unique_pairs_insert d d' self :
  unique_pairs d →
  pair_taken (stckdetail d) (row_of self) (pk self) = false →
  stckdetail d' = <[key_of self d := row_of self]> (stckdetail d) →
  unique_pairs d'.
Proof.
  rewrite !unique_pairs_spec, pair_taken_false. intros Hu Hfree -> k1 k2 r1 r2.
  assert (∀ k r, stckdetail d !! k = Some r →
                 transaction_id r = transaction_id (row_of self) →
                 product_id r = product_id (row_of self) →
                 k = key_of self d) as Hown.
  { intros k r Hk Ht Hp. specialize (Hfree k r Hk Ht Hp).
    unfold key_of. by rewrite Hfree. }
  destruct (decide (key_of self d = k1)) as [<-|Hne1];
    destruct (decide (key_of self d = k2)) as [<-|Hne2]; [done|..].
  - rewrite lookup_insert_eq, lookup_insert_ne by done.
    intros [= <-] H2 Ht Hp. symmetry. eauto.
  - rewrite lookup_insert_eq, lookup_insert_ne by done.
    intros H1 [= <-] Ht Hp. eauto.
  - rewrite !lookup_insert_ne by done. apply Hu.
Qed.

Lemma unique_pairs_run cs d : unique_pairs d → unique_pairs (run cs d).
Proof.
  apply invariant_run.
  - intros self d0 d' r HI [[-> _]|(self' & _ & _ & _ & Hd & Hfree & _)]%save_inv;
      [done|]. eauto using unique_pairs_insert.
  - intros self d0 d' r HI [[-> _]|(k & _ & _ & _ & Hd)]%delete_inv; [done|].
    revert HI. rewrite !unique_pairs_spec, Hd. intros HI k1 k2 r1 r2.
    rewrite !lookup_delete_Some. intros [_ H1] [_ H2]. eauto.
  - intros header d0 d' r HI [_ Hd]%header_create_inv.
    revert HI. by rewrite !unique_pairs_spec, Hd.
Qed.

(** Product rows are written, never removed. *)
Lemma revert_products inst d d' r :
  revert inst d = (d', r) → dom (prodmast d) ⊆ dom (prodmast d').
Proof.
  unfold revert, Product_save. unfold_M.
  rewrite get_transaction_seen. destruct (seen (stckmain d) _); [|by intros [= <- <-]].
  rewrite get_product_seen. cbn. destruct (seen (prodmast d) _); intros [= <- <-]; [|done].
  cbn. rewrite dom_insert_L. set_solver.
Qed.

Lemma revert_old_products self d d' r :
  revert_old self d = (d', r) → dom (prodmast d) ⊆ dom (prodmast d').
Proof.
  unfold revert_old, objects_get. unfold_M.
  destruct (truthy (pk self)) as [k|]; [|by intros [= <- <-]].
  destruct (stckdetail d !! k); [|by intros [= <- <-]].
  destruct (revert _ d) as [d2 [a|e]] eqn:Hr; intros [= <- <-];
    by eapply revert_products.
Qed.

Lemma save_products self d d' r :
  save self d = (d', r) → dom (prodmast d) ⊆ dom (prodmast d').
Proof.
  intros Hsave. pose proof Hsave as [[-> _]|(self' & -> & _)]%save_inv; [done|].
  revert Hsave. unfold save, save_body. unfold_M. rewrite full_clean_run.
  destruct (full_clean_errors self d); [|done].
  destruct (revert_old self d) as [d0 [[]|e]] eqn:Hrev; [|done].
  apply revert_old_products in Hrev.
  destruct (apply_new self d0) as [d1 [self1|e]] eqn:Hnew; [|done].
  apply apply_new_inv in Hnew as (-> & _).
  destruct (store self1 d0) as [d2 [self2|e]] eqn:Hstore; [|done].
  apply store_inv in Hstore as (p & _ & -> & _). intros [= <-]. cbn.
  rewrite dom_insert_L. set_solver.
Qed.

(** After the lines of [pre] were stored for header [t], the table holds
    a row of [t] for each of their products, and no product or header
    row that existed before is gone. *)
Lemma applied_rows t pre d0 d1 :
  applied t pre d0 d1 →
  stckmain d1 = stckmain d0 ∧
  dom (prodmast d0) ⊆ dom (prodmast d1) ∧
  (∀ k r, stckdetail d0 !! k = Some r → stckdetail d1 !! k = Some r) ∧
  (∀ dd, dd ∈ pre →
     (dd_product dd).1 ∈ dom (prodmast d1) ∧
     ∃ k r, stckdetail d1 !! k = Some r ∧ transaction_id r = t.1 ∧
            product_id r = (dd_product dd).1).
Proof.
  induction 1 as [|dd pre' d d1 d' self' Hline _ IH].
  { split_and!; [done..|]. intros dd Hin. by apply elem_of_nil in Hin. }
  destruct IH as (Hm & Hp & Hrows & Hpre).
  unfold objects_create in Hline.
  pose proof (save_products _ _ _ _ Hline) as Hgrow.
  pose proof Hline as Hline'. unfold save in Hline'. unfold_M.
  rewrite full_clean_run in Hline'.
  destruct (full_clean_errors _ d) eqn:Hclean; [|done].
  apply full_clean_errors_nil in Hclean as (_ & Hprod & _). cbn in Hprod. clear Hline'.
  apply save_inv in Hline as [[_ [? [=]]]|(? & _ & _ & Hm1 & Hd1 & _ & _)].
  unfold key_of in Hd1. cbn in Hd1.
  assert (∀ k r, stckdetail d !! k = Some r → stckdetail d1 !! k = Some r) as Hkeep.
  { intros k r Hk. rewrite Hd1, lookup_insert_ne; [done|].
    intros <-. by rewrite next_id_fresh in Hk. }
  split_and!; [congruence|by etrans|eauto|].
  intros dd' [->|Hin]%elem_of_cons; [|eauto].
  split; [apply Hp, Hgrow; by apply elem_of_dom|].
  eexists _, _. split; [apply Hrows; rewrite Hd1; apply lookup_insert_eq|done].
Qed.

Lemma header_create_lookup header d d0 t :
  StockTransaction_objects_create header d = (d0, Return t) →
  stckmain d0 !! t.1 = Some t.2.
Proof.
  unfold StockTransaction_objects_create. unfold_M.
  case_bool_decide; [done|]. intros [= <- <-]. cbn. apply lookup_insert_eq.
Qed.

Lemma applied_app_inv t pre rest d0 d' :
  applied t (pre ++ rest) d0 d' →
  ∃ d1, applied t pre d0 d1 ∧ applied t rest d1 d'.
Proof.
  revert d0. induction pre as [|dd pre IH]; intros d0; cbn.
  - intros H. exists d0. split; [constructor|done].
  - inversion 1 as [|? ? ? d1 ? self' Hline Hrest]; subst.
    destruct (IH _ Hrest) as (d2 & Hpre & Hpost).
    exists d2. split; [econstructor; eauto|done].
Qed.

(** A line for a product that an earlier line of the submission already
    took is refused by [validate_unique]. *)
Lemma repeated_product_raises t pre dd d0 d1 :
  applied t pre d0 d1 →
  is_Some (stckmain d0 !! t.1) →
  (dd_product dd).1 ∈ (λ x, (dd_product x).1) <$> pre →
  ∃ errors,
    (NON_FIELD_ERRORS, unique_message) ∈ errors ∧
    objects_create t (dd_product dd) (dd_quantity dd) d1 =
      (d1, Raise (ValidationErrorDict errors)).
Proof.
  intros Happ Hheader (dd' & Hpid & Hin)%list_elem_of_fmap.
  apply applied_rows in Happ as (Hm & _ & _ & Hpre).
  destruct (Hpre dd' Hin) as (Hprod & k & r & Hk & Hrt & Hrp).
  rewrite <-Hm in Hheader. destruct Hheader as [t' Ht'].
  apply elem_of_dom in Hprod as [p' Hp']. rewrite <-Hpid in Hp', Hrp.
  set (self := {| pk := None;
                  transaction := {| fk_id := t.1; fk_cache := Some t.2 |};
                  product := {| fk_id := (dd_product dd).1;
                                fk_cache := Some (dd_product dd).2 |};
                  quantity := dd_quantity dd |}).
  assert (pair_taken (stckdetail d1) (row_of self) None = true) as Htaken.
  { apply pair_taken_true. exists k, r. done. }
  exists (full_clean_errors self d1).
  assert ((NON_FIELD_ERRORS, unique_message) ∈ full_clean_errors self d1) as Herr.
  { unfold full_clean_errors, clean_fields, validate_unique. cbn.
    rewrite Ht', Hp'. cbn. rewrite Htaken.
    apply elem_of_app. right. apply list_elem_of_here. }
  split; [done|].
  unfold objects_create, save. fold self. unfold_M. rewrite full_clean_run.
  destruct (full_clean_errors self d1); [by apply elem_of_nil in Herr|done].
Qed.

(** C7. The pairs (transaction, product) of the stored lines stay
    pairwise distinct under any sequence of calls.  A submission in which
    a line names the product of an earlier line raises and leaves the
    database it was called on: no header, no line, no stock change.  When
    the header and the lines before the repeated one were accepted, the
    exception carries the uniqueness message of [validate_unique]. *)
Theorem duplicate_line_product :
  (∀ cs d, unique_pairs d → unique_pairs (run cs d)) ∧
  (∀ header pre dd post d,
     (dd_product dd).1 ∈ (λ x, (dd_product x).1) <$> pre →
     ∃ e, create header (pre ++ dd :: post) d =
          (d, Raise (SerializersValidationErrorStr e))) ∧
  (∀ header pre dd post d d0 t d1,
     (dd_product dd).1 ∈ (λ x, (dd_product x).1) <$> pre →
     StockTransaction_objects_create header d = (d0, Return t) →
     applied t pre d0 d1 →
     ∃ errors,
       (NON_FIELD_ERRORS, unique_message) ∈ errors ∧
       create header (pre ++ dd :: post) d =
         (d, Raise (SerializersValidationErrorStr (ValidationErrorDict errors)))).
Proof.
  split_and!; [apply unique_pairs_run|..].
  - intros header pre dd post d Hdup.
    destruct (create header (pre ++ dd :: post) d) as [d' r] eqn:Hc.
    pose proof Hc as [[-> [e ->]]|(t & d0 & -> & Hh & Happ)]%create_inv.
    + apply create_raise_wrapped in Hc as [cause ->]; [eauto|by destruct pre].
    + apply applied_app_inv in Happ as (d1 & Hpre & Hpost).
      inversion Hpost as [|? ? ? d2 ? self' Hline _]; subst.
      destruct (repeated_product_raises t pre dd d0 d1) as (errors & _ & Hraise);
        [done|by erewrite header_create_lookup|done|congruence].
  - intros header pre dd post d d0 t d1 Hdup Hh Hpre.
    destruct (repeated_product_raises t pre dd d0 d1) as (errors & Hin & Hraise);
      [done|by erewrite header_create_lookup|done|].
    exists errors. split; [done|]. eapply create_line_raises; eauto.
Qed.

Lemma duplicate_line_product_witness :
  (unique_pairs scenario.history_db ∧
   unique_pairs
     (run [ Save (scenario.new_line (2, scenario.DO1) (1, scenario.P100 5) 1);
            Save (scenario.line_at 2 1 1 3) ] scenario.history_db)) ∧
  (∃ e, create scenario.GRN1
          ([ {| dd_product := (1, scenario.P100 0); dd_quantity := 5 |} ] ++
           {| dd_product := (1, scenario.P100 0); dd_quantity := 7 |} :: [])
          scenario.fresh_db =
        (scenario.fresh_db, Raise (SerializersValidationErrorStr e))) ∧
  (∃ errors,
     (NON_FIELD_ERRORS, unique_message) ∈ errors ∧
     create scenario.GRN1
       ([ {| dd_product := (1, scenario.P100 0); dd_quantity := 5 |} ] ++
        {| dd_product := (1, scenario.P100 0); dd_quantity := 7 |} :: [])
       scenario.fresh_db =
     (scenario.fresh_db,
      Raise (SerializersValidationErrorStr (ValidationErrorDict errors)))).
Proof.
  assert (unique_pairs scenario.history_db) as Huniq.
  { refine (bool_decide_unpack (map_Forall _ _) _). vm_compute. exact I. }
  split_and!.
  - exact Huniq.
  - apply (proj1 duplicate_line_product _ scenario.history_db Huniq).
  - apply (proj1 (proj2 duplicate_line_product) scenario.GRN1
             [ {| dd_product := (1, scenario.P100 0); dd_quantity := 5 |} ]
             {| dd_product := (1, scenario.P100 0); dd_quantity := 7 |} []
             scenario.fresh_db).
    simpl. left.
  - refine (proj2 (proj2 duplicate_line_product) scenario.GRN1
              [ {| dd_product := (1, scenario.P100 0); dd_quantity := 5 |} ]
              {| dd_product := (1, scenario.P100 0); dd_quantity := 7 |} []
              scenario.fresh_db _ (1, scenario.GRN1) _ _ _ _).
    + simpl. left.
    + vm_compute. reflexivity.
    + eapply applied_cons; [vm_compute; reflexivity|]. apply applied_nil.
Defined.

(** ** Computation rules for the blocks of [save] and [delete] *)

Lemma with_current_stock_twice p a b :
  with_current_stock (with_current_stock p a) b = with_current_stock p b.
Proof. done. Qed.

Lemma with_current_stock_same p : with_current_stock p (current_stock p) = p.
Proof. by destruct p. Qed.

Lemma revert_run inst d t p :
  seen (stckmain d) (transaction inst) = Some t →
  seen (prodmast d) (product inst) = Some p →
  let p' := with_current_stock p
              (if String.eqb (transaction_type t) "IN"
               then current_stock p - quantity inst
               else current_stock p + quantity inst) in
  revert inst d =
  (set_prodmast (insert (fk_id (product inst)) p') d,
   Return (with_product (with_transaction inst t) p')).
Proof.
  intros Ht Hp. unfold revert, Product_save. unfold_M.
  rewrite get_transaction_seen, Ht, get_product_seen. cbn. rewrite Hp. cbn.
  by destruct (String.eqb _ _).
Qed.

Lemma apply_new_run self d t p :
  seen (stckmain d) (transaction self) = Some t →
  seen (prodmast d) (product self) = Some p →
  apply_new self d =
  (d, if String.eqb (transaction_type t) "IN" then
        Return (with_product (with_transaction self t)
                  (with_current_stock p (current_stock p + quantity self)))
      else if String.eqb (transaction_type t) "OUT" then
        if bool_decide (current_stock p < quantity self)
        then Raise (ValidationError (insufficient_message p (quantity self)))
        else Return (with_product (with_transaction self t)
                       (with_current_stock p (current_stock p - quantity self)))
      else Return (with_transaction self t)).
Proof.
  intros Ht Hp. unfold apply_new. unfold_M. rewrite get_transaction_seen, Ht.
  destruct (String.eqb (transaction_type t) "IN");
    [|destruct (String.eqb (transaction_type t) "OUT")];
    rewrite ?get_product_seen; cbn; rewrite ?Hp; cbn; [done| |done].
  by case_bool_decide.
Qed.

Lemma store_run self d p :
  seen (prodmast d) (product self) = Some p →
  pair_taken (stckdetail d) (row_of self) (pk self) = false →
  store self d =
  ({| prodmast := <[fk_id (product self) := p]> (prodmast d);
      stckmain := stckmain d;
      stckdetail := <[key_of self d := row_of self]> (stckdetail d) |},
   Return (with_pk (with_product self p) (key_of self d))).
Proof.
  intros Hp Hfree. unfold store, Product_save, super_save. unfold_M.
  rewrite get_product_seen, Hp. cbn. unfold row_of, key_of in *. cbn.
  rewrite Hfree. by destruct (pk self).
Qed.

Lemma coherent_seen_transaction d self t :
  coherent d self →
  seen (stckmain d) (transaction self) = Some t →
  stckmain d !! fk_id (transaction self) = Some t.
Proof.
  intros [Hc _]. unfold seen. destruct (fk_cache (transaction self)); [|done].
  intros [= ->]. eauto.
Qed.

Lemma delta_IN t q : String.eqb (transaction_type t) "IN" = true → delta t q = q.
Proof. unfold delta. by intros ->. Qed.

Lemma delta_OUT t q : String.eqb (transaction_type t) "OUT" = true → delta t q = - q.
Proof.
  unfold delta. intros H. rewrite H.
  apply String.eqb_eq in H. by rewrite H.
Qed.

(** The two blocks of [save] that follow the reversal, in one equation. *)
Lemma apply_store_run self d t p :
  seen (stckmain d) (transaction self) = Some t →
  seen (prodmast d) (product self) = Some p →
  pair_taken (stckdetail d) (row_of self) (pk self) = false →
  let p' := with_current_stock p (current_stock p + delta t (quantity self)) in
  (apply_new self ≫= store) d =
  if String.eqb (transaction_type t) "OUT" && bool_decide (current_stock p < quantity self)
  then (d, Raise (ValidationError (insufficient_message p (quantity self))))
  else ({| prodmast := <[fk_id (product self) := p']> (prodmast d);
           stckmain := stckmain d;
           stckdetail := <[key_of self d := row_of self]> (stckdetail d) |},
        Return (with_pk (with_product (with_transaction self t) p') (key_of self d))).
Proof.
  intros Ht Hp Hfree p'.
  unfold mbind, M_bind, bind. rewrite (apply_new_run _ _ _ _ Ht Hp).
  destruct (String.eqb (transaction_type t) "IN") eqn:HIN.
  { apply String.eqb_eq in HIN as HIN'. rewrite HIN'. cbn [String.eqb Ascii.eqb andb].
    rewrite store_run with (p := with_current_stock p (current_stock p + quantity self));
      [|done|exact Hfree].
    unfold key_of, p'. cbn. by rewrite delta_IN. }
  destruct (String.eqb (transaction_type t) "OUT") eqn:HOUT; cbn [andb].
  - case_bool_decide; [done|].
    rewrite store_run with (p := with_current_stock p (current_stock p - quantity self));
      [|done|exact Hfree].
    unfold key_of, p'. cbn. rewrite delta_OUT by done.
    by rewrite Z.add_opp_r.
  - rewrite store_run with (p := p); [|done|exact Hfree].
    unfold key_of, p', delta. cbn. rewrite HIN, HOUT, Z.add_0_r.
    by rewrite with_current_stock_same.
Qed.

(** [save] as the sequence of its blocks. *)
Lemma save_unfold self d :
  save self d =
  match full_clean_errors self d with
  | [] =>
      match revert_old self d with
      | (d0, Return _) =>
          match (apply_new self ≫= store) d0 with
          | (d', Return self') => (d', Return self')
          | (_, Raise e) => (d, Raise e)
          end
      | (_, Raise e) => (d, Raise e)
      end
  | errors => (d, Raise (ValidationErrorDict errors))
  end.
Proof.
  unfold save, save_body. unfold_M. rewrite full_clean_run.
  destruct (full_clean_errors self d); [|done].
  destruct (revert_old self d) as [d0 [[]|e]]; [|done].
  by destruct (apply_new self d0) as [d1 [a|e]].
Qed.

(** [save] of a new line that passed validation, in one equation. *)
Lemma save_new_run self d t p :
  pk self = None →
  full_clean_errors self d = [] →
  seen (stckmain d) (transaction self) = Some t →
  seen (prodmast d) (product self) = Some p →
  let p' := with_current_stock p (current_stock p + delta t (quantity self)) in
  save self d =
  if String.eqb (transaction_type t) "OUT" && bool_decide (current_stock p < quantity self)
  then (d, Raise (ValidationError (insufficient_message p (quantity self))))
  else ({| prodmast := <[fk_id (product self) := p']> (prodmast d);
           stckmain := stckmain d;
           stckdetail := <[next_id (stckdetail d) := row_of self]> (stckdetail d) |},
        Return (with_pk (with_product (with_transaction self t) p')
                  (next_id (stckdetail d)))).
Proof.
  intros Hpk Hclean Ht Hp p'.
  destruct (full_clean_errors_nil _ _ Hclean) as (_ & _ & _ & Hfree).
  rewrite save_unfold, Hclean. unfold revert_old. rewrite Hpk. cbn [truthy].
  unfold mret at 1, M_ret at 1, ret at 1.
  rewrite (apply_store_run self d t p Ht Hp Hfree).
  unfold key_of. rewrite Hpk. cbn [default].
  by destruct (_ && _).
Qed.

(** [save] of a stored line that passed validation, in one equation:
    [t_old] and [p_old] are the header and the product of the stored
    row, [t] and [p] what the instance reads once the reversal is
    written. *)
Lemma save_replace_run self d k row t_old p_old t p :
  pk self = Some k → k ≠ 0 →
  full_clean_errors self d = [] →
  stckdetail d !! k = Some row →
  stckmain d !! transaction_id row = Some t_old →
  prodmast d !! product_id row = Some p_old →
  let p_old' := with_current_stock p_old
                  (if String.eqb (transaction_type t_old) "IN"
                   then current_stock p_old - row_quantity row
                   else current_stock p_old + row_quantity row) in
  let d0 := set_prodmast (insert (product_id row) p_old') d in
  seen (stckmain d) (transaction self) = Some t →
  seen (prodmast d0) (product self) = Some p →
  let p' := with_current_stock p (current_stock p + delta t (quantity self)) in
  save self d =
  if String.eqb (transaction_type t) "OUT" && bool_decide (current_stock p < quantity self)
  then (d, Raise (ValidationError (insufficient_message p (quantity self))))
  else ({| prodmast := <[fk_id (product self) := p']> (prodmast d0);
           stckmain := stckmain d;
           stckdetail := <[k := row_of self]> (stckdetail d) |},
        Return (with_pk (with_product (with_transaction self t) p') k)).
Proof.
  intros Hpk Hk Hclean Hrow Hto Hpo p_old' d0 Ht Hp p'.
  destruct (full_clean_errors_nil _ _ Hclean) as (_ & _ & _ & Hfree).
  assert (revert_old self d = (d0, Return tt)) as Hrev.
  { unfold revert_old, objects_get. rewrite Hpk. cbn [truthy].
    rewrite bool_decide_eq_false_2 by done. unfold_M. rewrite Hrow.
    erewrite revert_run with (t := t_old) (p := p_old); done. }
  rewrite save_unfold, Hclean, Hrev.
  rewrite (apply_store_run self d0 t p Ht Hp Hfree).
  unfold key_of. rewrite Hpk. cbn [default].
  by destruct (_ && _).
Qed.

Lemma delete_run self d t p k :
  pk self = Some k →
  seen (stckmain d) (transaction self) = Some t →
  seen (prodmast d) (product self) = Some p →
  delete self d =
  ({| prodmast :=
        <[fk_id (product self) :=
            with_current_stock p
              (if String.eqb (transaction_type t) "IN"
               then current_stock p - quantity self
               else current_stock p + quantity self)]> (prodmast d);
      stckmain := stckmain d;
      stckdetail := base.delete k (stckdetail d) |},
   Return tt).
Proof.
  intros Hpk Ht Hp. unfold delete, delete_body.
  unfold mbind, M_bind, bind, atomic.
  rewrite (revert_run _ _ _ _ Ht Hp). unfold super_delete. cbn. by rewrite Hpk.
Qed.

(** ** Apply-line followed by Remove-line *)

(** C5. Take a new line of an IN or an OUT transaction, on any database
    and with any header and product objects held by the instance.  If
    [save] stores it, then [delete] of the instance [save] returned
    returns, the line is gone and the product row is the product the line
    read when [save] was called: the stock is exactly the one the line
    read before it was applied, and nothing else differs from the
    database [save] was called on.  When the objects the instance holds
    agree with the stored rows this is the very database [save] was
    called on, and [delete] of the line read back from the table does the
    same. *)
Theorem apply_then_remove (d d1 : Database) (self self1 : StockTransactionDetail) :
  pk self = None →
  (∀ t, seen (stckmain d) (transaction self) = Some t →
        transaction_type t = "IN" ∨ transaction_type t = "OUT") →
  save self d = (d1, Return self1) →
  ∃ p,
    seen (prodmast d) (product self) = Some p ∧
    delete self1 d1 =
      ({| prodmast := <[fk_id (product self) := p]> (prodmast d);
          stckmain := stckmain d;
          stckdetail := stckdetail d |}, Return tt) ∧
    stock (delete self1 d1).1 (fk_id (product self)) = Some (current_stock p) ∧
    (∀ id, id ≠ fk_id (product self) → stock (delete self1 d1).1 id = stock d id) ∧
    (coherent d self →
     delete self1 d1 = (d, Return tt) ∧
     (∃ k, pk self1 = Some k ∧ (objects_get k ≫= delete) d1 = (d, Return tt)) ∧
     ∀ id, stock (delete self1 d1).1 id = stock d id).
Proof.
  intros Hpk Htype Hsave.
  assert (full_clean_errors self d = []) as Hclean.
  { revert Hsave. unfold save. unfold_M. rewrite full_clean_run.
    by destruct (full_clean_errors self d). }
  destruct (full_clean_errors_nil _ _ Hclean) as ([t0 Ht0] & [p0 Hp0] & _ & _).
  assert (∃ t, seen (stckmain d) (transaction self) = Some t) as [t Hst].
  { unfold seen. destruct (fk_cache (transaction self)); eauto. }
  assert (∃ p, seen (prodmast d) (product self) = Some p) as [p Hsp].
  { unfold seen. destruct (fk_cache (product self)); eauto. }
  rewrite (save_new_run _ _ _ _ Hpk Hclean Hst Hsp) in Hsave.
  destruct (_ && _) eqn:Hrefused; [done|]. injection Hsave as <- <-.
  set (p' := with_current_stock p (current_stock p + delta t (quantity self))).
  set (k := next_id (stckdetail d)).
  assert (with_current_stock p'
            (if String.eqb (transaction_type t) "IN"
             then current_stock p' - quantity self
             else current_stock p' + quantity self) = p) as Hback.
  { unfold p'. rewrite with_current_stock_twice. cbn.
    transitivity (with_current_stock p (current_stock p));
      [f_equal|apply with_current_stock_same].
    destruct (Htype t Hst) as [HIN|HOUT].
    - rewrite delta_IN, (proj2 (String.eqb_eq _ _) HIN) by by apply String.eqb_eq.
      lia.
    - rewrite delta_OUT by by apply String.eqb_eq.
      rewrite HOUT. cbn. lia. }
  cbn in Hback.
  assert (∀ x y, ({| prodmast := <[fk_id (product self) := p]>
                       (<[fk_id (product self) := p']> (prodmast d));
                     stckmain := stckmain d;
                     stckdetail := base.delete k (<[k := x]> (stckdetail d)) |},
                  Return y) =
                 ({| prodmast := <[fk_id (product self) := p]> (prodmast d);
                     stckmain := stckmain d;
                     stckdetail := stckdetail d |}, @Return unit y)) as Hsame.
  { intros x y. rewrite insert_insert_eq.
    by rewrite delete_insert_id by apply next_id_fresh. }
  assert (delete
            (with_pk (with_product (with_transaction self t) p') k)
            {| prodmast := <[fk_id (product self) := p']> (prodmast d);
               stckmain := stckmain d;
               stckdetail := <[k := row_of self]> (stckdetail d) |} =
          ({| prodmast := <[fk_id (product self) := p]> (prodmast d);
              stckmain := stckmain d;
              stckdetail := stckdetail d |}, Return tt)) as Hdel.
  { erewrite delete_run; [|done..]. cbn. rewrite Hback. apply Hsame. }
  exists p. split; [exact Hsp|]. split; [exact Hdel|].
  cbn in Hdel. rewrite Hdel. unfold stock. cbn [fst prodmast].
  split; [by rewrite lookup_insert_eq|].
  split; [by intros id Hid; rewrite lookup_insert_ne|].
  intros Hco.
  assert (prodmast d !! fk_id (product self) = Some p) as Hrow.
  { revert Hsp. unfold seen. destruct (fk_cache (product self)) eqn:E; [|done].
    intros [= ->]. by apply Hco. }
  assert ({| prodmast := <[fk_id (product self) := p]> (prodmast d);
             stckmain := stckmain d;
             stckdetail := stckdetail d |} = d) as Hd.
  { rewrite insert_id by done. by destruct d. }
  rewrite Hd. split; [done|].
  split; [|by intros id; rewrite insert_id].
  exists k. split; [done|].
  unfold objects_get. unfold_M. cbn. rewrite lookup_insert_eq. cbn.
  erewrite delete_run with (t := t) (p := p'); [|done|..].
  - cbn. rewrite Hback, Hsame. by rewrite Hd.
  - unfold seen. cbn. apply coherent_seen_transaction in Hst; done.
  - unfold seen. cbn. apply lookup_insert_eq.
Qed.

(** An OUT line of 3 against a stock of 5, and back; and an OUT line of 5
    whose product object says 10 while the stored row says 2: [save]
    stores 5 and [delete] stores the 10 the line read. *)
Lemma apply_then_remove_witness :
  (∃ d1 self1,
     save (scenario.new_line (1, scenario.DO1) (1, scenario.P100 5) 3) scenario.five_db =
       (d1, Return self1) ∧
     stock d1 1 = Some 2 ∧
     delete self1 d1 = (scenario.five_db, Return tt) ∧
     (∃ k, pk self1 = Some k ∧
           (objects_get k ≫= delete) d1 = (scenario.five_db, Return tt)) ∧
     ∀ id, stock (delete self1 d1).1 id = stock scenario.five_db id) ∧
  (∃ d1 self1,
     save (scenario.new_line (1, scenario.DO1) (1, scenario.P100 10) 5) behind_db =
       (d1, Return self1) ∧
     stock behind_db 1 = Some 2 ∧
     stock d1 1 = Some 5 ∧
     stock (delete self1 d1).1 1 = Some 10).
Proof.
  split.
  - eexists _, _. split; [vm_compute; reflexivity|]. split; [reflexivity|].
    edestruct apply_then_remove
      with (d := scenario.five_db)
           (self := scenario.new_line (1, scenario.DO1) (1, scenario.P100 5) 3)
      as (p & _ & _ & _ & _ & Hco).
    { reflexivity. }
    { intros t [= <-]. right. reflexivity. }
    { vm_compute. reflexivity. }
    apply Hco. split; intros ? [= <-]; reflexivity.
  - eexists _, _. split; [vm_compute; reflexivity|].
    split; [reflexivity|]. split; [reflexivity|].
    edestruct apply_then_remove
      with (d := behind_db)
           (self := scenario.new_line (1, scenario.DO1) (1, scenario.P100 10) 5)
      as (p & Hp & _ & Hstock & _).
    { reflexivity. }
    { intros t [= <-]. right. reflexivity. }
    { vm_compute. reflexivity. }
    injection Hp as <-. exact Hstock.
Defined.

(** ** Remove-line *)



(** ** Where the ledger invariant fails *)

(** C1, evaluated.  [history_db] is reached from a product without stock
    by two submissions; there the stock of the product is 5, the balance
    of its lines, and not negative.  Deleting the receipt, or editing its
    quantity from 8 down to 1, returns and leaves the stock at -3 and at
    -2: equal to the balance of the lines that remain, but negative. *)
Theorem ledger_invariant_after_reversal :
  run [ Create scenario.GRN1 [ {| dd_product := (1, scenario.P100 0); dd_quantity := 8 |} ];
        Create scenario.DO1 [ {| dd_product := (1, scenario.P100 8); dd_quantity := 3 |} ] ]
      scenario.fresh_db = scenario.history_db ∧
  stock scenario.history_db 1 = Some 5 ∧
  ledger_balance scenario.history_db 1 = 5 ∧
  (∃ d', remove_line 1 scenario.history_db = (d', Return tt) ∧
         stock d' 1 = Some (-3) ∧ ledger_balance d' 1 = -3) ∧
  (∃ d' self', replace_line 1 1 1 scenario.history_db = (d', Return self') ∧
               stock d' 1 = Some (-2) ∧ ledger_balance d' 1 = -2).
Proof.
  split_and!; [vm_compute; reflexivity..| |].
  - eexists. split_and!; vm_compute; reflexivity.
  - eexists _, _. split_and!; vm_compute; reflexivity.
Qed.

(** ** Replace-line on an instance that holds its product *)

(** C4, evaluated.  [ten_db] is the specification's example: a stock of
    10 from the one IN line of 10.  The line is edited to 4.  On the line
    read back from the table, which has loaded no product, [save] leaves a
    stock of 4.  On the instance that [objects_create] returned, which
    still holds its copy of the product with 10, the row written by the
    reversal is overwritten with 10 + 4: the stock is 14, the balance of
    the lines 4. *)
Theorem replace_line_edit_to_four :
  objects_create (1, scenario.GRN1) (1, scenario.P100 0) 10 scenario.header_db =
    (scenario.ten_db,
     Return (with_pk (scenario.new_line (1, scenario.GRN1) (1, scenario.P100 10) 10) 1)) ∧
  (∃ d' self',
     save (scenario.line_at 1 1 1 4) scenario.ten_db = (d', Return self') ∧
     stock d' 1 = Some 4 ∧ ledger_balance d' 1 = 4) ∧
  (∃ d' self',
     save (scenario.with_quantity
             (with_pk (scenario.new_line (1, scenario.GRN1) (1, scenario.P100 10) 10) 1) 4)
          scenario.ten_db = (d', Return self') ∧
     stock d' 1 = Some 14 ∧ ledger_balance d' 1 = 4).
Proof.
  split_and!.
  - vm_compute. reflexivity.
  - eexists _, _. split_and!; vm_compute; reflexivity.
  - eexists _, _. split_and!; vm_compute; reflexivity.
Qed.

(** ** The ledger equation *)

Section balance.
Variable headers : gmap Z StockTransaction.
Implicit Types lines : gmap Z DetailRow.

Lemma balance_insert lines k r id :
  lines !! k = None →
  balance headers (<[k := r]> lines) id = contribution headers r id + balance headers lines id.
Proof.
  intros Hk. unfold balance.
  rewrite map_fold_insert_L; [done| |done]. intros; lia.
Qed.

Lemma balance_delete lines k r id :
  lines !! k = Some r →
  balance headers lines id =
  contribution headers r id + balance headers (base.delete k lines) id.
Proof.
  intros Hk. unfold balance.
  rewrite (map_fold_delete_L _ _ k r); [done| |done]. intros; lia.
Qed.

Lemma balance_replace lines k r r' id :
  lines !! k = Some r →
  balance headers (<[k := r']> lines) id =
  contribution headers r' id - contribution headers r id + balance headers lines id.
Proof.
  intros Hk. rewrite <-insert_delete_eq, balance_insert by apply lookup_delete_eq.
  rewrite (balance_delete lines k r id Hk). lia.
Qed.
End balance.

(** A header stored under an id that no line names changes no balance. *)
Lemma balance_new_header headers lines k t id :
  map_Forall (λ _ r, is_Some (headers !! transaction_id r)) lines →
  headers !! k = None →
  balance (<[k := t]> headers) lines id = balance headers lines id.
Proof.
  intros Hall Hk. induction lines as [|j r lines Hj IH] using map_ind; [done|].
  rewrite !balance_insert by done.
  apply map_Forall_insert in Hall as [[t' Ht'] Hall]; [|done].
  rewrite IH by done. f_equal. unfold contribution.
  rewrite lookup_insert_ne; [done|]. intros ->. congruence.
Qed.

Lemma contribution_of_line headers r id t :
  headers !! transaction_id r = Some t →
  contribution headers r id =
  if bool_decide (product_id r = id) then delta t (row_quantity r) else 0.
Proof. unfold contribution. by intros ->. Qed.

(** On a valid header the reversal of [revert] is the negated effect. *)
Lemma revert_amount t (s q : Z) :
  transaction_type t = "IN" ∨ transaction_type t = "OUT" →
  (if String.eqb (transaction_type t) "IN" then s - q else s + q) = s - delta t q.
Proof.
  intros [H|H]; unfold delta; rewrite H; cbn; lia.
Qed.

(** A line that passed validation, held by an instance whose copies
    agree with the tables, reads the stored header and product. *)
Lemma clean_coherent_seen self d :
  full_clean_errors self d = [] →
  coherent d self →
  ∃ t p, stckmain d !! fk_id (transaction self) = Some t ∧
         prodmast d !! fk_id (product self) = Some p ∧
         seen (stckmain d) (transaction self) = Some t ∧
         seen (prodmast d) (product self) = Some p.
Proof.
  intros Hclean [Hct Hcp].
  destruct (full_clean_errors_nil _ _ Hclean) as ([t Ht] & [p Hp] & _ & _).
  exists t, p. split_and!; [done..| |]; unfold seen.
  - destruct (fk_cache (transaction self)) as [t'|]; [|done].
    rewrite (Hct t' eq_refl) in Ht. congruence.
  - destruct (fk_cache (product self)) as [p'|]; [|done].
    rewrite (Hcp p' eq_refl) in Hp. congruence.
Qed.

Lemma save_return_clean self d d' self' :
  save self d = (d', Return self') → full_clean_errors self d = [].
Proof.
  unfold save. unfold_M. rewrite full_clean_run.
  by destruct (full_clean_errors self d).
Qed.

(** Apply-line keeps the ledger equation. *)
Lemma save_new_keeps_ledger self d d' r :
  ledger_state d → coherent d self → pk self = None →
  save self d = (d', r) → ledger_state d'.
Proof.
  intros Hl Hco Hpk Hsave.
  pose proof Hsave as [[-> _]|(self' & -> & _)]%save_inv; [done|].
  pose proof (save_return_clean _ _ _ _ Hsave) as Hclean.
  destruct (clean_coherent_seen _ _ Hclean Hco) as (t & p & Ht & Hp & Hst & Hsp).
  rewrite (save_new_run _ _ _ _ Hpk Hclean Hst Hsp) in Hsave.
  destruct (_ && _); [done|]. injection Hsave as <- _.
  destruct Hl as [Htypes Hheaders Hzero Heq]. split; cbn.
  - done.
  - apply map_Forall_insert_2; [cbn; eauto|done].
  - rewrite lookup_insert_ne; [done|]. pose proof (next_id_positive (stckdetail d)). lia.
  - intros id p''. unfold ledger_balance. cbn.
    rewrite balance_insert by apply next_id_fresh.
    rewrite (contribution_of_line _ _ _ t) by done. cbn.
    rewrite lookup_insert. case_decide as Hid.
    + intros [= <-]. cbn. rewrite bool_decide_eq_true_2 by done.
      rewrite (Heq _ _ Hp). unfold ledger_balance. subst id. lia.
    + intros Hid'. rewrite bool_decide_eq_false_2 by done.
      rewrite (Heq _ _ Hid'). unfold ledger_balance. lia.
Qed.

(** Remove-line of a line read back from the table keeps the equation. *)
Lemma remove_line_keeps_ledger k d :
  ledger_state d → ledger_state (remove_line k d).1.
Proof.
  intros Hl. unfold remove_line, objects_get. unfold_M.
  destruct (stckdetail d !! k) as [row|] eqn:Hrow; [|done].
  pose proof Hl as [Htypes Hheaders Hzero Heq].
  destruct (Hheaders _ _ Hrow) as [t Ht].
  destruct (prodmast d !! product_id row) as [p|] eqn:Hp.
  2: { unfold delete, delete_body, revert. unfold_M.
       rewrite get_transaction_seen. unfold seen at 1. cbn. rewrite Ht.
       rewrite get_product_seen. unfold seen. cbn. by rewrite Hp. }
  erewrite delete_run with (t := t) (p := p); [|done..]. cbn.
  rewrite (revert_amount t) by eauto.
  split; cbn.
  - done.
  - intros j r. rewrite lookup_delete_Some. intros [_ Hj]. eauto.
  - rewrite lookup_delete. by case_decide.
  - intros id p''. unfold ledger_balance in *. cbn.
    pose proof (balance_delete (stckmain d) _ _ _ id Hrow) as Hbal.
    rewrite (contribution_of_line _ _ _ t) in Hbal by done.
    rewrite lookup_insert. case_decide as Hid.
    + intros [= <-]. cbn. rewrite bool_decide_eq_true_2 in Hbal by done.
      rewrite (Heq _ _ Hp). subst id. lia.
    + intros Hid'. rewrite bool_decide_eq_false_2 in Hbal by done.
      rewrite (Heq _ _ Hid'). lia.
Qed.

(** Replace-line of a line read back from the table, with a new product
    and a new quantity assigned, keeps the equation. *)
Lemma replace_line_keeps_ledger k pid q d :
  ledger_state d → ledger_state (replace_line k pid q d).1.
Proof.
  intros Hl. unfold replace_line, objects_get. unfold_M.
  destruct (stckdetail d !! k) as [row|] eqn:Hrow; [|done]. cbn [pk transaction].
  set (self := {| pk := Some k;
                  transaction := {| fk_id := transaction_id row; fk_cache := None |};
                  product := {| fk_id := pid; fk_cache := None |};
                  quantity := q |}).
  destruct (save self d) as [d' r] eqn:Hsave. cbn.
  pose proof Hsave as [[-> _]|(self' & -> & _)]%save_inv; [done|].
  pose proof (save_return_clean _ _ _ _ Hsave) as Hclean.
  destruct (full_clean_errors_nil _ _ Hclean) as ([t Ht] & [pn Hpn] & _ & _).
  cbn in Ht, Hpn.
  pose proof Hl as [Htypes Hheaders Hzero Heq].
  assert (k ≠ 0) as Hk by (intros ->; congruence).
  destruct (prodmast d !! product_id row) as [p_old|] eqn:Hpo.
  2: { exfalso. revert Hsave. rewrite save_unfold, Hclean.
       unfold revert_old, objects_get, revert. cbn [pk self truthy].
       rewrite bool_decide_eq_false_2 by done. unfold_M. rewrite Hrow.
       rewrite get_transaction_seen. unfold seen at 1. cbn. rewrite Ht.
       rewrite get_product_seen. unfold seen. cbn. by rewrite Hpo. }
  set (p_old' := with_current_stock p_old
                   (if String.eqb (transaction_type t) "IN"
                    then current_stock p_old - row_quantity row
                    else current_stock p_old + row_quantity row)).
  set (p := if decide (product_id row = pid) then p_old' else pn).
  rewrite (save_replace_run self d k row t p_old t p) in Hsave; [|done..| |]; first last.
  { unfold seen. cbn. fold p_old'. rewrite lookup_insert. unfold p.
    by case_decide. }
  { done. }
  destruct (_ && _); [done|]. injection Hsave as <- _. fold p_old'.
  assert (current_stock p_old' = current_stock p_old - delta t (row_quantity row))
    as Hold by (unfold p_old'; cbn; apply revert_amount; eauto).
  split; cbn.
  - done.
  - apply map_Forall_insert_2; [cbn; eauto|done].
  - by rewrite lookup_insert_ne.
  - intros id p''. unfold ledger_balance in *. cbn.
    rewrite (balance_replace _ _ k row) by done.
    rewrite !(contribution_of_line _ _ _ t) by done. cbn.
    rewrite lookup_insert. case_decide as Hid.
    + intros [= <-]. cbn. subst id. rewrite bool_decide_eq_true_2 by done. unfold p.
      case_decide as Hsame.
      * rewrite bool_decide_eq_true_2 by done. rewrite Hold, (Heq _ _ Hpo), Hsame. lia.
      * rewrite bool_decide_eq_false_2 by done. rewrite (Heq _ _ Hpn). lia.
    + rewrite (bool_decide_eq_false_2 (pid = id)) by done.
      rewrite lookup_insert. case_decide as Hid'.
      * intros [= <-]. subst id. rewrite bool_decide_eq_true_2 by done.
        rewrite Hold, (Heq _ _ Hpo). lia.
      * intros Hp''. rewrite bool_decide_eq_false_2 by done.
        rewrite (Heq _ _ Hp''). lia.
Qed.

Lemma header_create_run header d d0 t :
  StockTransaction_objects_create header d = (d0, Return t) →
  t = (next_id (stckmain d), header) ∧
  d0 = set_stckmain (insert (next_id (stckmain d)) header) d.
Proof.
  unfold StockTransaction_objects_create. unfold_M.
  case_bool_decide; [done|]. by intros [= <- <-].
Qed.

(** The lines of a submission that was stored name pairwise distinct
    products. *)
Lemma applied_NoDup t details_data d0 d' :
  applied t details_data d0 d' →
  is_Some (stckmain d0 !! t.1) →
  NoDup ((λ x, (dd_product x).1) <$> details_data).
Proof.
  induction 1 as [|dd rest d d1 d' self' Hline Hrest IH]; intros Hheader.
  { constructor. }
  assert (stckmain d1 = stckmain d) as Hm.
  { unfold objects_create in Hline.
    by apply save_inv in Hline as [[_ [? [=]]]|(? & _ & _ & ? & _)]. }
  cbn. constructor; [|apply IH; by rewrite Hm].
  intros (dd' & Hpid & (pre & post & ->)%list_elem_of_split)%list_elem_of_fmap.
  apply applied_app_inv in Hrest as (d2 & Hpre & Hpost).
  inversion Hpost as [|? ? ? d3 ? self2 Hline' _]; subst.
  destruct (repeated_product_raises t (dd :: pre) dd' d d2) as (errors & _ & Hraise).
  - econstructor; eauto.
  - done.
  - rewrite <-Hpid. cbn. left.
  - congruence.
Qed.

(** What every [save] of a new line keeps, when the line's copies agree
    with the tables, is kept by the lines of a submission whose product
    objects are the stored rows. *)
Section applied_invariant.
Variable I : Database → Prop.
Hypothesis I_save_new :
  ∀ self d d' r, I d → coherent d self → pk self = None → save self d = (d', r) → I d'.

Lemma applied_keeps t details_data d0 d' :
  applied t details_data d0 d' →
  stckmain d0 !! t.1 = Some t.2 →
  I d0 →
  resolved d0 details_data →
  I d'.
Proof.
  intros Happ Hheader. pose proof (applied_NoDup _ _ _ _ Happ) as Hnodup.
  specialize (Hnodup (mk_is_Some _ _ Hheader)). revert Hheader Hnodup.
  induction Happ as [|dd rest d d1 d' self' Hline Hrest IH];
    intros Hheader Hnodup Hl Hres; [done|].
  rewrite fmap_cons in Hnodup. apply NoDup_cons in Hnodup as [Hfresh Hnodup].
  apply Forall_cons in Hres as [Hdd Hres].
  unfold objects_create in Hline.
  set (self := {| pk := None;
                  transaction := {| fk_id := t.1; fk_cache := Some t.2 |};
                  product := {| fk_id := (dd_product dd).1;
                                fk_cache := Some (dd_product dd).2 |};
                  quantity := dd_quantity dd |}) in Hline.
  assert (coherent d self) as Hco.
  { split; cbn; by intros ? [= <-]. }
  pose proof (save_return_clean _ _ _ _ Hline) as Hclean.
  destruct (clean_coherent_seen _ _ Hclean Hco) as (t' & p & _ & _ & Hst & Hsp).
  pose proof Hline as Hline'.
  rewrite (save_new_run self d t' p eq_refl Hclean Hst Hsp) in Hline'.
  destruct (_ && _); [done|]. injection Hline' as Hd1 _.
  apply IH.
  - by rewrite <-Hd1.
  - done.
  - by eapply I_save_new.
  - unfold resolved in *. rewrite Forall_forall in Hres. apply Forall_forall.
    intros dd' Hin. rewrite <-(Hres dd' Hin), <-Hd1. cbn.
    apply lookup_insert_ne. intros Heq. apply Hfresh.
    apply list_elem_of_fmap. exists dd'. done.
Qed.
End applied_invariant.

Lemma create_keeps_ledger header details_data d :
  transaction_type header = "IN" ∨ transaction_type header = "OUT" →
  ledger_state d →
  resolved d details_data →
  ledger_state (create header details_data d).1.
Proof.
  intros Htype Hl Hres.
  destruct (create header details_data d) as [d' r] eqn:Hc. cbn.
  apply create_inv in Hc as [[-> _]|(t & d0 & _ & Hh & Happ)]; [done|].
  pose proof (header_create_lookup _ _ _ _ Hh) as Hheader.
  apply header_create_run in Hh as [-> ->].
  pose proof (next_id_fresh (stckmain d)) as Hnew.
  destruct Hl as [Htypes Hheaders Hzero Heq].
  eapply (applied_keeps ledger_state save_new_keeps_ledger); [done|done| |done].
  split; cbn.
  - by apply map_Forall_insert_2.
  - intros k row Hk. destruct (Hheaders k row Hk) as [t Ht].
    rewrite lookup_insert_ne; [eauto|]. intros Heq'. congruence.
  - done.
  - intros id p Hp. unfold ledger_balance. cbn.
    rewrite balance_new_header by done. by apply Heq.
Qed.

Lemma apply_line_keeps_ledger tid pid q d :
  ledger_state d → ledger_state (apply_line tid pid q d).1.
Proof.
  intros Hl. unfold apply_line. unfold_M.
  destruct (stckmain d !! tid) as [t|] eqn:Ht; [|done].
  destruct (prodmast d !! pid) as [p|] eqn:Hp; [|done].
  unfold objects_create.
  destruct (save _ d) as [d' r] eqn:Hsave. cbn.
  eapply save_new_keeps_ledger; [exact Hl| | |exact Hsave]; [|done].
  split; cbn; by intros ? [= <-].
Qed.

(** Let every header be IN or OUT, every stored line have its header,
    no stored line have id 0, and the stock of every product be the
    balance of its stored lines.  All of this still holds after
    - Apply-line, called with the header and the product object read from
      the tables at the call;
    - Replace-line on a line fetched with [objects_get], the product
      assigned by id and the quantity assigned, so that the instance
      holds no product object when [save] starts;
    - Remove-line on a line fetched with [objects_get];
    - [create] with an IN or OUT header, on a submission whose product
      objects are the stored rows.
    Whether the call returns or raises makes no difference. *)
Theorem ledger_equation_kept (d : Database) :
  ledger_state d →
  (∀ tid pid q, ledger_state (apply_line tid pid q d).1) ∧
  (∀ k pid q, ledger_state (replace_line k pid q d).1) ∧
  (∀ k, ledger_state (remove_line k d).1) ∧
  (∀ header details_data,
     transaction_type header = "IN" ∨ transaction_type header = "OUT" →
     resolved d details_data →
     ledger_state (create header details_data d).1).
Proof.
  intros Hl. split_and!.
  - intros. by apply apply_line_keeps_ledger.
  - intros. by apply replace_line_keeps_ledger.
  - intros. by apply remove_line_keeps_ledger.
  - intros. by apply create_keeps_ledger.
Qed.

Lemma ledger_equation_kept_witness :
  ledger_state scenario.history_db ∧
  ledger_state (replace_line 1 1 1 scenario.history_db).1 ∧
  stock (replace_line 1 1 1 scenario.history_db).1 1 = Some (-2).
Proof.
  assert (ledger_state scenario.history_db) as Hl.
  { split.
    - refine (bool_decide_unpack (map_Forall _ _) _). vm_compute. exact I.
    - refine (bool_decide_unpack (map_Forall _ _) _). vm_compute. exact I.
    - reflexivity.
    - refine (bool_decide_unpack
                (map_Forall (λ id p, current_stock p =
                                     ledger_balance scenario.history_db id)
                   (prodmast scenario.history_db)) _).
      vm_compute. exact I. }
  split; [exact Hl|]. split; [|vm_compute; reflexivity].
  apply (proj1 (proj2 (ledger_equation_kept scenario.history_db Hl))).
Defined.

(** ** Where the stock stays non-negative *)

Lemma save_new_keeps_nonnegative self d d' r :
  stocks_nonnegative d → coherent d self → pk self = None →
  save self d = (d', r) → stocks_nonnegative d'.
Proof.
  intros Hnn Hco Hpk Hsave.
  pose proof Hsave as [[-> _]|(self' & -> & Hq & _)]%save_inv; [done|].
  pose proof (save_return_clean _ _ _ _ Hsave) as Hclean.
  destruct (clean_coherent_seen _ _ Hclean Hco) as (t & p & Ht & Hp & Hst & Hsp).
  rewrite (save_new_run _ _ _ _ Hpk Hclean Hst Hsp) in Hsave.
  destruct (_ && _) eqn:Hrefused; [done|]. injection Hsave as <- _.
  apply map_Forall_insert_2; [|done]. cbn.
  specialize (Hnn _ _ Hp). cbn in Hnn. unfold delta.
  destruct (String.eqb (transaction_type t) "IN"); [lia|].
  destruct (String.eqb (transaction_type t) "OUT"); [|lia].
  cbn in Hrefused. apply bool_decide_eq_false in Hrefused. lia.
Qed.

(** Apply-line with the header and the product read from the tables at
    the call, and Create-transaction on a submission whose product
    objects are the stored rows, never make a stock negative. *)
Theorem stock_nonnegative_kept_by_apply (d : Database) :
  stocks_nonnegative d →
  (∀ tid pid q, stocks_nonnegative (apply_line tid pid q d).1) ∧
  (∀ header details_data,
     resolved d details_data →
     stocks_nonnegative (create header details_data d).1).
Proof.
  intros Hnn. split.
  - intros tid pid q. unfold apply_line. unfold_M.
    destruct (stckmain d !! tid) as [t|] eqn:Ht; [|done].
    destruct (prodmast d !! pid) as [p|] eqn:Hp; [|done].
    unfold objects_create.
    destruct (save _ d) as [d' r] eqn:Hsave. cbn.
    eapply save_new_keeps_nonnegative; [exact Hnn| | |exact Hsave]; [|done].
    split; cbn; by intros ? [= <-].
  - intros header details_data Hres.
    destruct (create header details_data d) as [d' r] eqn:Hc. cbn.
    apply create_inv in Hc as [[-> _]|(t & d0 & _ & Hh & Happ)]; [done|].
    pose proof (header_create_lookup _ _ _ _ Hh) as Hheader.
    apply header_create_run in Hh as [-> ->].
    by eapply (applied_keeps stocks_nonnegative save_new_keeps_nonnegative).
Qed.

(** The end-to-end run of the specification: receive 50, issue 20, and
    a request for 999 that is refused with the stock left at 30. *)
Example end_to_end :
  ∃ d1 d2 t1 t2,
    create scenario.GRN1 [ {| dd_product := (1, scenario.P100 0); dd_quantity := 50 |} ]
      scenario.fresh_db = (d1, Return t1) ∧
    stock d1 1 = Some 50 ∧
    create scenario.DO1 [ {| dd_product := (1, scenario.P100 50); dd_quantity := 20 |} ]
      d1 = (d2, Return t2) ∧
    stock d2 1 = Some 30 ∧
    create scenario.DO2 [ {| dd_product := (1, scenario.P100 30); dd_quantity := 999 |} ]
      d2 =
    (d2, Raise (SerializersValidationErrorStr
                  (ValidationError
                     "Insufficient stock for P-100. Available: 30, Required: 999"))).
Proof.
  eexists _, _, _, _.
  split; [vm_compute; reflexivity|]. split; [reflexivity|].
  split; [vm_compute; reflexivity|]. split; [reflexivity|].
  vm_compute. reflexivity.
Qed.

(** Two accepted calls: an OUT line of 3 against a stock of 5 leaves 2, and
    a delivery of 5 of each of three products that hold 10 leaves 5 of
    each. *)
Lemma stock_nonnegative_kept_by_apply_witness :
  (stocks_nonnegative scenario.five_db ∧
   (∃ d1 line, apply_line 1 1 3 scenario.five_db = (d1, Return line)) ∧
   stock (apply_line 1 1 3 scenario.five_db).1 1 = Some 2 ∧
   stocks_nonnegative (apply_line 1 1 3 scenario.five_db).1) ∧
  (stocks_nonnegative scenario.shelf_db ∧
   (∃ d1 t, create scenario.DO1 (take 3 scenario.four_lines) scenario.shelf_db =
            (d1, Return t)) ∧
   stock (create scenario.DO1 (take 3 scenario.four_lines) scenario.shelf_db).1 1 =
     Some 5 ∧
   stocks_nonnegative
     (create scenario.DO1 (take 3 scenario.four_lines) scenario.shelf_db).1).
Proof.
  assert (stocks_nonnegative scenario.five_db) as Hfive.
  { refine (bool_decide_unpack (map_Forall _ _) _). vm_compute. exact I. }
  assert (stocks_nonnegative scenario.shelf_db) as Hshelf.
  { refine (bool_decide_unpack (map_Forall _ _) _). vm_compute. exact I. }
  split.
  - split; [exact Hfive|].
    split; [eexists _, _; vm_compute; reflexivity|].
    split; [vm_compute; reflexivity|].
    apply (proj1 (stock_nonnegative_kept_by_apply scenario.five_db Hfive)).
  - split; [exact Hshelf|].
    split; [eexists _, _; vm_compute; reflexivity|].
    split; [vm_compute; reflexivity|].
    apply (proj2 (stock_nonnegative_kept_by_apply scenario.shelf_db Hshelf)).
    unfold resolved, scenario.four_lines. cbn [take].
    repeat (constructor; [reflexivity|]). constructor.
Defined.

(** ** Edges of [delete] and [save] *)

(** [delete] is atomic, and it needs a saved instance: a call that
    raises leaves the database it was called on, and on an instance that
    was never saved every call raises, the change it made to the product
    row before reaching [super().delete()] undone. *)
Theorem delete_atomic :
  (∀ self d d' e, delete self d = (d', Raise e) → d' = d) ∧
  (∀ self d, pk self = None → ∃ e, delete self d = (d, Raise e)).
Proof.
  split.
  - intros self d d' e [[-> _]|(k & _ & [=] & _)]%delete_inv. done.
  - intros self d Hpk. destruct (delete self d) as [d' r] eqn:Hdel.
    pose proof Hdel as [[-> [e ->]]|(k & Hk & _)]%delete_inv; [eauto|congruence].
Qed.

(** A line built in memory for product 1 of [five_db]: inside the block
    the product row is written with 5 + 3, the call raises, and the
    stock is 5. *)
Lemma delete_atomic_witness :
  pk (scenario.new_line (1, scenario.DO1) (1, scenario.P100 5) 3) = None ∧
  (∃ e, delete (scenario.new_line (1, scenario.DO1) (1, scenario.P100 5) 3)
          scenario.five_db = (scenario.five_db, Raise e)) ∧
  stock (delete_body (scenario.new_line (1, scenario.DO1) (1, scenario.P100 5) 3)
           scenario.five_db).1 1 = Some 8.
Proof.
  split; [reflexivity|]. split; [|reflexivity].
  apply (proj2 delete_atomic). reflexivity.
Defined.

(** [save] of an instance whose primary key names no stored row: the
    line passes validation, [objects.get] raises [DoesNotExist] inside the
    block, and nothing is written. *)
Theorem save_missing_row (self : StockTransactionDetail) (d : Database) (k : Z) :
  pk self = Some k → k ≠ 0 →
  stckdetail d !! k = None →
  full_clean_errors self d = [] →
  save self d = (d, Raise DoesNotExist).
Proof.
  intros Hpk Hk Hrow Hclean.
  rewrite save_unfold, Hclean. unfold revert_old, objects_get.
  rewrite Hpk. cbn [truthy]. rewrite bool_decide_eq_false_2 by done.
  unfold_M. by rewrite Hrow.
Qed.

Lemma save_missing_row_witness :
  save (scenario.line_at 7 1 1 2) scenario.five_db = (scenario.five_db, Raise DoesNotExist).
Proof.
  apply (save_missing_row (scenario.line_at 7 1 1 2) scenario.five_db 7).
  - reflexivity.
  - lia.
  - reflexivity.
  - vm_compute. reflexivity.
Defined.

(** ** Edges of [create] *)

(** A submission whose [transaction_code] is already stored: the insert
    of the header violates the unique column, the serializer turns the
    [IntegrityError] into its validation error, and the database is the
    one the call started from. *)
Theorem create_duplicate_code header details_data d k t :
  details_data ≠ [] →
  stckmain d !! k = Some t →
  transaction_code t = transaction_code header →
  create header details_data d = (d, Raise (SerializersValidationErrorStr IntegrityError)).
Proof.
  intros Hne Hk Hcode. unfold create.
  destruct details_data as [|dd rest]; [done|].
  unfold StockTransaction_objects_create. unfold_M.
  rewrite bool_decide_eq_true_2; [done|]. by exists k, t.
Qed.

Lemma create_duplicate_code_witness :
  create scenario.DO1 [ {| dd_product := (1, scenario.P100 5); dd_quantity := 1 |} ]
    scenario.five_db =
  (scenario.five_db, Raise (SerializersValidationErrorStr IntegrityError)).
Proof.
  apply (create_duplicate_code scenario.DO1 _ scenario.five_db 1 scenario.DO1);
    [done|reflexivity|reflexivity].
Defined.

(** ** Replace-line, in general *)

Lemma full_clean_ok self d :
  is_Some (stckmain d !! fk_id (transaction self)) →
  is_Some (prodmast d !! fk_id (product self)) →
  0 < quantity self →
  pair_taken (stckdetail d) (row_of self) (pk self) = false →
  full_clean_errors self d = [].
Proof.
  intros [t Ht] [p Hp] Hq Hfree.
  unfold full_clean_errors, clean_fields, clean, validate_unique.
  rewrite Ht, Hp, Hfree. cbn. by rewrite bool_decide_eq_false_2 by lia.
Qed.

(** Whether a pair is taken depends on the two ids only. *)
Lemma pair_taken_ids table r r' own :
  transaction_id r = transaction_id r' → product_id r = product_id r' →
  pair_taken table r own = pair_taken table r' own.
Proof.
  intros Ht Hp. destruct (pair_taken table r' own) eqn:E.
  - apply pair_taken_true in E as (k & x & ? & ? & ? & ?).
    apply pair_taken_true. exists k, x. split_and!; congruence.
  - apply pair_taken_false. intros k x Hk Hxt Hxp.
    eapply (proj1 (pair_taken_false _ _ _) E); eauto; congruence.
Qed.

(** [save] of a stored line by an instance that holds a copy of the
    line's product, equal to the stored row. *)
Lemma save_held_product_run self d k row t_old t p :
  pk self = Some k → k ≠ 0 →
  full_clean_errors self d = [] →
  stckdetail d !! k = Some row →
  stckmain d !! transaction_id row = Some t_old →
  fk_id (product self) = product_id row →
  fk_cache (product self) = Some p →
  prodmast d !! product_id row = Some p →
  seen (stckmain d) (transaction self) = Some t →
  save self d =
  if String.eqb (transaction_type t) "OUT" && bool_decide (current_stock p < quantity self)
  then (d, Raise (ValidationError (insufficient_message p (quantity self))))
  else ({| prodmast :=
             <[product_id row :=
                 with_current_stock p (current_stock p + delta t (quantity self))]>
               (prodmast d);
           stckmain := stckmain d;
           stckdetail := <[k := row_of self]> (stckdetail d) |},
        Return (with_pk (with_product (with_transaction self t)
                           (with_current_stock p
                              (current_stock p + delta t (quantity self)))) k)).
Proof.
  intros Hpk Hk Hclean Hrow Hto Hid Hcache Hp Ht.
  rewrite (save_replace_run self d k row t_old p t p); try done.
  - destruct (_ && _); [done|]. cbn. by rewrite Hid, insert_insert_eq.
  - unfold seen. by rewrite Hcache.
Qed.

(** Replace-line by an instance that holds its product object.  When
    the instance's copy of the product is the stored row of the line's
    own product, the quantity of the OUT check is compared with the
    stock as it was before the call, and an accepted line leaves that
    stock plus the new line's effect: nothing of the old line is taken
    back. *)
Theorem replace_on_held_product self d k row t_old t p :
  pk self = Some k → k ≠ 0 →
  full_clean_errors self d = [] →
  stckdetail d !! k = Some row →
  stckmain d !! transaction_id row = Some t_old →
  fk_id (product self) = product_id row →
  fk_cache (product self) = Some p →
  prodmast d !! product_id row = Some p →
  seen (stckmain d) (transaction self) = Some t →
  (transaction_type t = "OUT" → current_stock p < quantity self →
     save self d = (d, Raise (ValidationError (insufficient_message p (quantity self))))) ∧
  (¬ (transaction_type t = "OUT" ∧ current_stock p < quantity self) →
     ∃ d' self',
       save self d = (d', Return self') ∧
       stock d' (product_id row) = Some (current_stock p + delta t (quantity self)) ∧
       stckdetail d' = <[k := row_of self]> (stckdetail d)).
Proof.
  intros Hpk Hk Hclean Hrow Hto Hid Hcache Hp Ht.
  rewrite (save_held_product_run self d k row t_old t p) by done.
  split.
  - intros HOUT Hlt. rewrite HOUT. cbn. by rewrite bool_decide_eq_true_2.
  - intros Hok. destruct (_ && _) eqn:E.
    + apply andb_true_iff in E as [E1%String.eqb_eq E2%bool_decide_eq_true]. tauto.
    + eexists _, _. split; [done|]. split; [|done].
      unfold stock. cbn. by rewrite lookup_insert_eq.
Qed.

Lemma replace_on_held_product_witness :
  ∃ d' self',
    save (set_quantity
            (with_pk (scenario.new_line (1, scenario.GRN1) (1, scenario.P100 10) 10) 1) 4)
      scenario.ten_db = (d', Return self') ∧
    stock d' 1 = Some (10 + 4) ∧
    stckdetail d' =
      <[1 := {| transaction_id := 1; product_id := 1; row_quantity := 4 |}]>
        (stckdetail scenario.ten_db).
Proof.
  refine (proj2 (replace_on_held_product
            (set_quantity
               (with_pk (scenario.new_line (1, scenario.GRN1) (1, scenario.P100 10) 10) 1) 4)
            scenario.ten_db 1
            {| transaction_id := 1; product_id := 1; row_quantity := 10 |}
            scenario.GRN1 scenario.GRN1 (scenario.P100 10) _ _ _ _ _ _ _ _ _) _).
  - reflexivity.
  - lia.
  - vm_compute. reflexivity.
  - reflexivity.
  - reflexivity.
  - reflexivity.
  - reflexivity.
  - reflexivity.
  - reflexivity.
  - intros [[=] _].
Defined.

(** [StockTransactionDetail.__str__] on a line read back from the table,
    and what it does to a later edit.  The call changes no row and
    returns the part number with the quantity; but it loads the product
    into the instance, so that an edit of the quantity saved through the
    same instance ends with the stock before the edit plus the new line's
    effect, where the edit of a line that was only read back takes the
    old effect out first. *)
Theorem str_then_edit d k row t p q :
  stckdetail d !! k = Some row → k ≠ 0 →
  stckmain d !! transaction_id row = Some t →
  prodmast d !! product_id row = Some p →
  unique_pairs d →
  0 < q →
  ¬ (transaction_type t = "OUT" ∧ current_stock p < q) →
  (∃ inst, (objects_get k ≫= detail_str) d =
           (d, Return (inst, part_no p +:+ " - Qty: " +:+ pretty (row_quantity row))) ∧
           fk_cache (product inst) = Some p) ∧
  (∃ d' self',
     (objects_get k ≫= λ inst, detail_str inst ≫= λ '(inst, _), save (set_quantity inst q)) d =
       (d', Return self') ∧
     stock d' (product_id row) = Some (current_stock p + delta t q)).
Proof.
  intros Hrow Hk Ht Hp Huniq Hq Hok.
  unfold objects_get, detail_str. unfold_M. rewrite Hrow, get_product_seen.
  unfold seen. cbn. rewrite Hp. split; [eauto|].
  set (self := {| pk := Some k;
                  transaction := {| fk_id := transaction_id row; fk_cache := None |};
                  product := {| fk_id := product_id row; fk_cache := Some p |};
                  quantity := q |}).
  change (set_quantity _ q) with self.
  assert (full_clean_errors self d = []) as Hclean.
  { apply full_clean_ok; cbn; eauto.
    rewrite <-(Huniq k row Hrow). by apply pair_taken_ids. }
  rewrite (save_held_product_run self d k row t t p); try done.
  destruct (_ && _) eqn:E.
  - apply andb_true_iff in E as [E1%String.eqb_eq E2%bool_decide_eq_true].
    cbn in E2. tauto.
  - eexists _, _. split; [done|]. unfold stock. cbn. by rewrite lookup_insert_eq.
Qed.

Lemma str_then_edit_witness :
  (∃ inst, (objects_get 1 ≫= detail_str) scenario.ten_db =
           (scenario.ten_db, Return (inst, "P-100 - Qty: 10")) ∧
           fk_cache (product inst) = Some (scenario.P100 10)) ∧
  (∃ d' self',
     (objects_get 1 ≫= λ inst, detail_str inst ≫= λ '(inst, _), save (set_quantity inst 4))
       scenario.ten_db = (d', Return self') ∧
     stock d' 1 = Some (10 + 4)).
Proof.
  apply (str_then_edit scenario.ten_db 1
           {| transaction_id := 1; product_id := 1; row_quantity := 10 |}
           scenario.GRN1 (scenario.P100 10) 4).
  - reflexivity.
  - lia.
  - reflexivity.
  - reflexivity.
  - refine (bool_decide_unpack (map_Forall _ _) _). vm_compute. exact I.
  - lia.
  - intros [[=] _].
Defined.



(** ** A header that is neither IN nor OUT *)



(** ** When a submission is accepted *)

Lemma create_details_returns t details_data d0 :
  stckmain d0 !! t.1 = Some t.2 →
  (∀ k r, stckdetail d0 !! k = Some r → transaction_id r = t.1 →
          product_id r ∉ (λ x, (dd_product x).1) <$> details_data) →
  resolved d0 details_data →
  NoDup ((λ x, (dd_product x).1) <$> details_data) →
  Forall (λ dd, 0 < dd_quantity dd ∧
                (transaction_type t.2 = "OUT" →
                 dd_quantity dd ≤ current_stock (dd_product dd).2)) details_data →
  ∃ d',
    create_details t details_data d0 = (d', Return tt) ∧
    stckmain d' = stckmain d0 ∧
    (∀ dd, dd ∈ details_data →
           prodmast d' !! (dd_product dd).1 = Some (line_effect t.2 dd)) ∧
    (∀ id, id ∉ (λ x, (dd_product x).1) <$> details_data →
           prodmast d' !! id = prodmast d0 !! id) ∧
    size (stckdetail d') = (size (stckdetail d0) + length details_data)%nat ∧
    (∀ k r, stckdetail d0 !! k = Some r → stckdetail d' !! k = Some r).
Proof.
  revert d0. induction details_data as [|dd rest IH]; intros d0 Hheader Hnew Hres Hnodup Hok.
  { exists d0. cbn.
    split_and!; first [done | lia | intros dd Hin; by apply elem_of_nil in Hin]. }
  rewrite fmap_cons in Hnodup, Hnew. apply NoDup_cons in Hnodup as [Hfresh Hnodup].
  apply Forall_cons in Hres as [Hdd Hres]. apply Forall_cons in Hok as [[Hq Hstock] Hok].
  set (self := {| pk := None;
                  transaction := {| fk_id := t.1; fk_cache := Some t.2 |};
                  product := {| fk_id := (dd_product dd).1;
                                fk_cache := Some (dd_product dd).2 |};
                  quantity := dd_quantity dd |}).
  assert (full_clean_errors self d0 = []) as Hclean.
  { apply full_clean_ok; cbn; eauto. apply pair_taken_false. cbn.
    intros k r Hk Hrt Hrp. destruct (Hnew k r Hk Hrt). rewrite Hrp. left. }
  pose proof (save_new_run self d0 t.2 (dd_product dd).2 eq_refl Hclean eq_refl eq_refl)
    as Hsave. cbn zeta in Hsave.
  replace (String.eqb (transaction_type t.2) "OUT" &&
           bool_decide (current_stock (dd_product dd).2 < quantity self)) with false
    in Hsave; first last.
  { symmetry. apply andb_false_iff.
    destruct (String.eqb (transaction_type t.2) "OUT") eqn:E; [right|by left].
    apply String.eqb_eq in E. apply bool_decide_eq_false. cbn. specialize (Hstock E). lia. }
  match type of Hsave with _ = (?x, _) => set (d1 := x) in * end.
  destruct (IH d1) as (d' & Hrun & Hm & Hin & Hout & Hsize & Hkeep).
  - done.
  - intros k r. unfold d1. cbn. rewrite lookup_insert. case_decide.
    + by intros [= <-] _.
    + intros Hk Hrt Hmem. apply (Hnew k r Hk Hrt). by right.
  - unfold resolved in *. rewrite Forall_forall in Hres. apply Forall_forall.
    intros dd' Hdd'. rewrite <-(Hres dd' Hdd'). unfold d1. cbn.
    apply lookup_insert_ne. intros Heq. apply Hfresh.
    apply list_elem_of_fmap. exists dd'. done.
  - done.
  - done.
  - exists d'. split_and!.
    + cbn. unfold mbind, M_bind, bind, objects_create. fold self. by rewrite Hsave.
    + by rewrite Hm.
    + intros dd' [->|Hdd']%elem_of_cons; [|by apply Hin].
      rewrite (Hout _ Hfresh). unfold d1. cbn. by rewrite lookup_insert_eq.
    + intros id Hid. apply not_elem_of_cons in Hid as [Hne Hid].
      rewrite (Hout id Hid). unfold d1. cbn. by rewrite lookup_insert_ne.
    + rewrite Hsize. unfold d1. cbn.
      rewrite map_size_insert_None by apply next_id_fresh. lia.
    + intros k r Hk. apply Hkeep. unfold d1. cbn.
      rewrite lookup_insert_ne; [done|]. intros <-. by rewrite next_id_fresh in Hk.
Qed.

(** A submission with a new code, lines for pairwise distinct products
    whose objects are the stored rows, quantities above zero and, for an
    OUT header, no quantity above the stock, is accepted: [create]
    returns the header under a new id, every product of the submission
    holds its stock plus the effect of its line, every other product is
    as before, and the line table has grown by the number of lines. *)
Theorem create_returns header details_data d :
  details_data ≠ [] →
  map_Forall (λ _ t', transaction_code t' ≠ transaction_code header) (stckmain d) →
  map_Forall (λ _ r, is_Some (stckmain d !! transaction_id r)) (stckdetail d) →
  resolved d details_data →
  NoDup ((λ x, (dd_product x).1) <$> details_data) →
  Forall (λ dd, 0 < dd_quantity dd ∧
                (transaction_type header = "OUT" →
                 dd_quantity dd ≤ current_stock (dd_product dd).2)) details_data →
  ∃ d',
    create header details_data d = (d', Return (next_id (stckmain d), header)) ∧
    stckmain d' = <[next_id (stckmain d) := header]> (stckmain d) ∧
    (∀ dd, dd ∈ details_data →
           prodmast d' !! (dd_product dd).1 = Some (line_effect header dd)) ∧
    (∀ id, id ∉ (λ x, (dd_product x).1) <$> details_data →
           prodmast d' !! id = prodmast d !! id) ∧
    size (stckdetail d') = (size (stckdetail d) + length details_data)%nat.
Proof.
  intros Hne Hcode Hheaders Hres Hnodup Hok.
  set (t := (next_id (stckmain d), header)).
  set (d0 := set_stckmain (insert (next_id (stckmain d)) header) d).
  assert (StockTransaction_objects_create header d = (d0, Return t)) as Hh.
  { unfold StockTransaction_objects_create. unfold_M.
    rewrite bool_decide_eq_false_2; [done|].
    intros (k & t' & Hk & Hsame). by apply (Hcode k t' Hk). }
  destruct (create_details_returns t details_data d0)
    as (d' & Hrun & Hm & Hin & Hout & Hsize & _); try done.
  - cbn. apply lookup_insert_eq.
  - intros k r Hk Hrt. cbn in Hk, Hrt. destruct (Hheaders k r Hk) as [t' Ht'].
    rewrite Hrt, next_id_fresh in Ht'. done.
  - exists d'. split_and!; try done.
    unfold create. destruct details_data as [|dd rest]; [done|].
    unfold try_except, atomic, mbind, M_bind, bind. rewrite Hh, Hrun. done.
Qed.

(** The first three lines of [four_lines] against the shelf. *)
Lemma create_returns_witness :
  ∃ d',
    create scenario.DO1 (take 3 scenario.four_lines) scenario.shelf_db =
      (d', Return (1, scenario.DO1)) ∧
    stckmain d' = <[1 := scenario.DO1]> (stckmain scenario.shelf_db) ∧
    (∀ dd, dd ∈ take 3 scenario.four_lines →
           prodmast d' !! (dd_product dd).1 = Some (line_effect scenario.DO1 dd)) ∧
    (∀ id, id ∉ (λ x, (dd_product x).1) <$> take 3 scenario.four_lines →
           prodmast d' !! id = prodmast scenario.shelf_db !! id) ∧
    size (stckdetail d') = (size (stckdetail scenario.shelf_db) + 3)%nat.
Proof.
  apply (create_returns scenario.DO1 (take 3 scenario.four_lines) scenario.shelf_db).
  - done.
  - intros k t Hk. cbn in Hk. by rewrite lookup_empty in Hk.
  - intros k r Hk. cbn in Hk. by rewrite lookup_empty in Hk.
  - unfold resolved. cbn. repeat (constructor; [reflexivity|]). constructor.
  - cbn. compute_done.
  - cbn. repeat (constructor; [split; [cbn; lia|intros _; cbn; lia]|]). constructor.
Defined.

(** ** What a line operation leaves alone *)

Lemma revert_products_frame inst d d' r id :
  revert inst d = (d', r) → id ≠ fk_id (product inst) →
  prodmast d' !! id = prodmast d !! id.
Proof.
  unfold revert, Product_save. unfold_M.
  rewrite get_transaction_seen. destruct (seen (stckmain d) _); [|by intros [= <- <-]].
  rewrite get_product_seen. cbn. destruct (seen (prodmast d) _); intros [= <- <-]; [|done].
  intros Hne. cbn. by rewrite lookup_insert_ne.
Qed.

Lemma revert_old_products_frame self d d0 r id :
  revert_old self d = (d0, r) →
  (∀ k row, truthy (pk self) = Some k → stckdetail d !! k = Some row →
            id ≠ product_id row) →
  prodmast d0 !! id = prodmast d !! id.
Proof.
  unfold revert_old, objects_get. unfold_M.
  destruct (truthy (pk self)) as [k|]; [|by intros [= <- <-]].
  destruct (stckdetail d !! k) as [row|] eqn:Hrow; [|by intros [= <- <-]].
  destruct (revert _ d) as [d2 [a|e]] eqn:Hr; intros [= <- <-] Hid;
    (eapply revert_products_frame; [exact Hr|]; cbn; eauto).
Qed.

(** [save] and [delete] write no header, no line but their own, and no
    product but the one the instance names and, for [save] of a stored
    line, the one the stored row names. *)
Theorem line_operations_frame :
  (∀ self d d' r,
     save self d = (d', r) →
     stckmain d' = stckmain d ∧
     (∀ k, k ≠ key_of self d → stckdetail d' !! k = stckdetail d !! k) ∧
     (∀ id, id ≠ fk_id (product self) →
            (∀ k row, truthy (pk self) = Some k → stckdetail d !! k = Some row →
                      id ≠ product_id row) →
            prodmast d' !! id = prodmast d !! id)) ∧
  (∀ self d d' r,
     delete self d = (d', r) →
     stckmain d' = stckmain d ∧
     (∀ k, pk self ≠ Some k → stckdetail d' !! k = stckdetail d !! k) ∧
     (∀ id, id ≠ fk_id (product self) → prodmast d' !! id = prodmast d !! id)).
Proof.
  split.
  - intros self d d' r Hsave.
    pose proof Hsave as [[-> _]|(self' & -> & _ & Hm & Hd & _)]%save_inv; [done|].
    split; [done|]. split.
    { intros k Hk. by rewrite Hd, lookup_insert_ne. }
    intros id Hid Hold. revert Hsave. rewrite save_unfold.
    destruct (full_clean_errors self d); [|done].
    destruct (revert_old self d) as [d0 [[]|e]] eqn:Hrev; [|done].
    unfold mbind, M_bind, bind.
    destruct (apply_new self d0) as [d1 [self1|e]] eqn:Hnew; [|done].
    apply apply_new_inv in Hnew as (-> & _ & Hrow).
    destruct (store self1 d0) as [d2 [self2|e]] eqn:Hstore; [|done].
    apply store_inv in Hstore as (p & _ & -> & _). intros [= <- _]. cbn.
    assert (fk_id (product self1) = fk_id (product self)) as ->
      by exact (f_equal product_id Hrow).
    rewrite lookup_insert_ne by done. by eapply revert_old_products_frame.
  - intros self d d' r Hdel.
    pose proof Hdel as [[-> _]|(k & Hpk & -> & Hm & Hd)]%delete_inv; [done|].
    split; [done|]. split.
    { intros k' Hk'. rewrite Hd, lookup_delete_ne; [done|]. congruence. }
    intros id Hid. revert Hdel. unfold delete, delete_body. unfold_M.
    destruct (revert self d) as [d1 [self1|e]] eqn:Hrev; [|done].
    unfold super_delete. destruct (pk self1); intros H; [|done].
    injection H as <-. cbn. by eapply revert_products_frame.
Qed.

(** Line 1 of [two_db] is moved to product 2: the headers, the other
    lines and the products other than 1 and 2 are what they were. *)
Lemma line_operations_frame_witness :
  stckmain (save (scenario.line_at 1 1 2 2) two_db).1 = stckmain two_db ∧
  (∀ k, k ≠ key_of (scenario.line_at 1 1 2 2) two_db →
        stckdetail (save (scenario.line_at 1 1 2 2) two_db).1 !! k = stckdetail two_db !! k) ∧
  (∀ id, id ≠ 2 →
         (∀ k row, truthy (Some 1) = Some k → stckdetail two_db !! k = Some row →
                   id ≠ product_id row) →
         prodmast (save (scenario.line_at 1 1 2 2) two_db).1 !! id = prodmast two_db !! id).
Proof.
  apply (proj1 line_operations_frame (scenario.line_at 1 1 2 2) two_db _
           (save (scenario.line_at 1 1 2 2) two_db).2).
  by destruct (save _ _).
Defined.

(** ** The inventory snapshot *)

(** [ProductViewSet.inventory] changes no row and, for a collation under
    which any two part numbers compare, returns the products sorted by
    part number: each stored product exactly once, with the stock the
    table holds for it, and nothing else. *)
Theorem inventory_snapshot (collate : string → string → bool) (d : Database) :
  (∀ a b, collate a b = true ∨ collate b a = true) →
  ∃ l,
    inventory collate d = (d, Return l) ∧
    Sorted (by_part_no collate) l ∧
    (∀ id p, (id, p) ∈ l ↔ prodmast d !! id = Some p) ∧
    NoDup l.*1 ∧
    length l = size (prodmast d).
Proof.
  intros Htotal.
  assert (Total (by_part_no collate)) as HT by (intros x y; apply Htotal).
  exists (merge_sort (by_part_no collate) (map_to_list (prodmast d))).
  pose proof (merge_sort_Permutation (by_part_no collate) (map_to_list (prodmast d)))
    as Hperm.
  split_and!.
  - done.
  - by apply Sorted_merge_sort.
  - intros id p. by rewrite Hperm, elem_of_map_to_list.
  - rewrite Hperm. apply NoDup_fst_map_to_list.
  - by rewrite Hperm, length_map_to_list.
Qed.

Lemma inventory_snapshot_witness :
  ∃ l,
    inventory String.leb scenario.shelf_db = (scenario.shelf_db, Return l) ∧
    Sorted (by_part_no String.leb) l ∧
    (∀ id p, (id, p) ∈ l ↔ prodmast scenario.shelf_db !! id = Some p) ∧
    NoDup l.*1 ∧
    length l = size (prodmast scenario.shelf_db).
Proof.
  apply (inventory_snapshot String.leb scenario.shelf_db). apply String.leb_total.
Defined.

(** ** Deleting headers and products *)

Lemma delete_products self d d' r :
  delete self d = (d', r) → dom (prodmast d) ⊆ dom (prodmast d').
Proof.
  unfold delete, delete_body. unfold_M.
  destruct (revert self d) as [d1 [self1|e]] eqn:Hrev; [|by intros [= <- _]].
  apply revert_products in Hrev. unfold super_delete.
  destruct (pk self1); by intros [= <- _].
Qed.

Lemma references_exist_act d op : references_exist d → references_exist (act d op).
Proof.
  intros Href. destruct op as [c|tid|id]; cbn.
  - apply (invariant_perform references_exist); [| | |exact Href]; clear d Href.
    + intros self d d' r Href Hsave.
      pose proof (save_products _ _ _ _ Hsave) as Hdom.
      pose proof Hsave as [[-> _]|(self' & -> & _ & Hm & Hd & _)]%save_inv; [done|].
      pose proof (save_return_clean _ _ _ _ Hsave) as Hclean.
      destruct (full_clean_errors_nil _ _ Hclean) as (Ht & Hp & _).
      assert (∀ i, is_Some (prodmast d !! i) → is_Some (prodmast d' !! i)) as Hgrow.
      { intros i. rewrite <-!elem_of_dom. apply Hdom. }
      unfold references_exist. rewrite Hd, Hm. apply map_Forall_insert_2.
      * cbn. eauto.
      * intros k r Hk. destruct (Href k r Hk). eauto.
    + intros self d d' r Href Hdel.
      pose proof (delete_products _ _ _ _ Hdel) as Hdom.
      pose proof Hdel as [[-> _]|(k & _ & _ & Hm & Hd)]%delete_inv; [done|].
      unfold references_exist. rewrite Hd, Hm.
      intros k' r' [_ Hk']%lookup_delete_Some. destruct (Href k' r' Hk') as [? Hp].
      split; [done|]. apply elem_of_dom, Hdom, elem_of_dom, Hp.
    + intros header d d' r Href Hh. pose proof Hh as [Hp Hd]%header_create_inv.
      unfold references_exist. rewrite Hd, Hp.
      intros k row Hk. destruct (Href k row Hk) as [[t Ht] ?]. split; [|done].
      revert Hh. unfold StockTransaction_objects_create. unfold_M.
      case_bool_decide; intros [= <- _]; [eauto|]. cbn.
      rewrite lookup_insert_ne; [eauto|]. intros Heq.
      rewrite <-Heq, next_id_fresh in Ht. done.
  - unfold StockTransaction_delete, modify, references_exist. cbn.
    intros k r [Hk Hne]%map_lookup_filter_Some. cbn in Hne.
    destruct (Href k r Hk). cbn. by rewrite lookup_delete_ne.
  - unfold Product_delete. unfold_M. case_bool_decide as Hused; [done|]. cbn.
    intros k r Hk. cbn in Hk. destruct (Href k r Hk). split; [done|]. cbn.
    rewrite lookup_delete_ne; [done|]. intros ->. apply Hused. by exists k, r.
Qed.

(** No sequence of calls, deletions of headers and deletions of products
    leaves a line without its header or without its product; and where
    that holds, Remove-line of any stored line returns with the line
    gone. *)
Theorem referential_integrity :
  (∀ ops d, references_exist d → references_exist (foldl act d ops)) ∧
  (∀ d k row,
     references_exist d → stckdetail d !! k = Some row →
     ∃ d', remove_line k d = (d', Return tt) ∧
           stckdetail d' = base.delete k (stckdetail d)).
Proof.
  split.
  - intros ops. induction ops as [|op ops IH]; intros d Href; cbn; [done|].
    by apply IH, references_exist_act.
  - intros d k row Href Hrow. destruct (Href k row Hrow) as [[t Ht] [p Hp]].
    unfold remove_line, objects_get. unfold_M. rewrite Hrow.
    erewrite delete_run with (t := t) (p := p); [|done..]. eauto.
Qed.

Lemma referential_integrity_witness :
  references_exist scenario.history_db ∧
  references_exist
    (foldl act scenario.history_db
       [ DeleteProduct 1; Call (Delete (scenario.line_at 2 2 1 3)); DeleteTransaction 1 ]) ∧
  ∃ d', remove_line 2 scenario.history_db = (d', Return tt) ∧
        stckdetail d' = base.delete 2 (stckdetail scenario.history_db).
Proof.
  assert (references_exist scenario.history_db) as Href.
  { refine (bool_decide_unpack (map_Forall _ _) _). vm_compute. exact I. }
  split; [exact Href|]. split.
  - apply (proj1 referential_integrity _ scenario.history_db Href).
  - apply (proj2 referential_integrity scenario.history_db 2
             {| transaction_id := 2; product_id := 1; row_quantity := 3 |} Href).
    reflexivity.
Defined.

Lemma balance_filter headers headers' (P : Z * DetailRow → Prop) `{!∀ x, Decision (P x)}
    (lines : gmap Z DetailRow) id :
  (∀ k r, lines !! k = Some r → P (k, r) →
          contribution headers' r id = contribution headers r id) →
  (∀ k r, lines !! k = Some r → ¬ P (k, r) → contribution headers r id = 0) →
  balance headers' (filter P lines) id = balance headers lines id.
Proof.
  induction lines as [|k r lines Hk IH] using map_ind; intros Hin Hout.
  { by rewrite map_filter_empty. }
  assert (balance headers' (filter P lines) id = balance headers lines id) as IH'.
  { apply IH.
    - intros k' r' Hk' HP. apply (Hin k' r'); [|done].
      rewrite lookup_insert_ne; [done|]. congruence.
    - intros k' r' Hk' HP. apply (Hout k' r'); [|done].
      rewrite lookup_insert_ne; [done|]. congruence. }
  rewrite (balance_insert headers) by done.
  destruct (decide (P (k, r))) as [HP|HP].
  - rewrite map_filter_insert_True by done.
    rewrite balance_insert by (apply map_lookup_filter_None; by left).
    rewrite IH', (Hin k r); [done| |done]. apply lookup_insert_eq.
  - rewrite map_filter_insert_False, delete_id by done.
    rewrite IH', (Hout k r); [done| |done]. apply lookup_insert_eq.
Qed.

(** Deleting a header through [StockTransaction.delete] removes the
    header and its lines and writes no product.  So where the stock of a
    product was the balance of its lines, and the header had a line for
    it, the stock afterwards differs from the balance by that line's
    effect: what the line did to the stock is not taken back. *)
Theorem transaction_delete_keeps_stock :
  (∀ tid d,
     ∃ d', StockTransaction_delete tid d = (d', Return tt) ∧
           prodmast d' = prodmast d ∧
           stckmain d' = base.delete tid (stckmain d) ∧
           ∀ k r, stckdetail d' !! k = Some r ↔
                  stckdetail d !! k = Some r ∧ transaction_id r ≠ tid) ∧
  (∀ d k row t p,
     ledger_state d → unique_pairs d →
     stckdetail d !! k = Some row →
     stckmain d !! transaction_id row = Some t →
     prodmast d !! product_id row = Some p →
     let d' := (StockTransaction_delete (transaction_id row) d).1 in
     prodmast d' !! product_id row = Some p ∧
     current_stock p =
       ledger_balance d' (product_id row) + delta t (row_quantity row)).
Proof.
  split.
  - intros tid d. eexists. split; [done|]. cbn. split_and!; [done..|].
    intros k r. by rewrite map_lookup_filter_Some.
  - intros d k row t p Hl Huniq Hrow Ht Hp. cbn. split; [done|].
    rewrite (stock_is_balance d Hl _ _ Hp). unfold ledger_balance. cbn.
    rewrite (balance_delete _ _ _ _ (product_id row) Hrow).
    rewrite (contribution_of_line _ _ _ t), bool_decide_eq_true_2 by done.
    rewrite <-(map_filter_delete_not _ _ k); first last.
    { intros y Hy HP. cbn in HP. congruence. }
    rewrite (balance_filter (stckmain d)); [lia| |].
    + intros k' r' Hk' HP. cbn in HP. unfold contribution.
      by rewrite lookup_delete_ne.
    + intros k' r' [Hne Hk']%lookup_delete_Some HP. cbn in HP.
      apply dec_stable in HP. unfold contribution.
      rewrite bool_decide_eq_false_2; [done|]. intros Hpid.
      pose proof (proj1 (unique_pairs_spec d) Huniq) as Hu.
      apply Hne. symmetry. by eapply Hu.
Qed.

(** The receipt GRN-1 of [history_db] is deleted: 5 stays in stock, the
    one line left is the issue of 3. *)
Lemma transaction_delete_keeps_stock_witness :
  prodmast (StockTransaction_delete 1 scenario.history_db).1 !! 1 = Some (scenario.P100 5) ∧
  5 = ledger_balance (StockTransaction_delete 1 scenario.history_db).1 1 + 8.
Proof.
  assert (ledger_state scenario.history_db) as Hl.
  { split.
    - refine (bool_decide_unpack (map_Forall _ _) _). vm_compute. exact I.
    - refine (bool_decide_unpack (map_Forall _ _) _). vm_compute. exact I.
    - reflexivity.
    - refine (bool_decide_unpack
                (map_Forall (λ id p, current_stock p =
                                     ledger_balance scenario.history_db id)
                   (prodmast scenario.history_db)) _).
      vm_compute. exact I. }
  apply (proj2 transaction_delete_keeps_stock scenario.history_db 1
           {| transaction_id := 1; product_id := 1; row_quantity := 8 |}
           scenario.GRN1 (scenario.P100 5) Hl).
  - refine (bool_decide_unpack (map_Forall _ _) _). vm_compute. exact I.
  - reflexivity.
  - reflexivity.
  - reflexivity.
Defined.

(** ** Apply-line on an IN transaction *)


